(** * Black Magic Debug: AVR PDI register protocol and LPC43xx IAP flash driver

    A shallow embedding of [src/target/avr_pdi.c] and [src/target/lpc43xx.c].
    Machine integers are [Z] with the wrap-around written out, the C
    functions that talk to the hardware are functions in a small state monad
    over the trace of transactions issued so far, and every collaborator
    that lives outside the two files (the JTAG shift primitive, the target
    memory accessors, the ROM call trampoline, ...) is a variable of the
    section that uses it. *)

From Stdlib Require Import ZArith List String Ascii Bool Lia.
Import ListNotations.
Local Open Scope Z_scope.

(** ** Machine integers *)

(** Conversion to [uint8_t] and [uint32_t]. *)
Definition uint8 (x : Z) : Z := x mod 256.
Definition uint32 (x : Z) : Z := x mod 4294967296.

(** ** A state monad over the transaction trace *)

Definition ST (S A : Type) : Type := S -> A * S.

Definition ret {S A : Type} (a : A) : ST S A := fun s => (a, s).

Definition bind {S A B : Type} (m : ST S A) (k : A -> ST S B) : ST S B :=
  fun s => let (a, s') := m s in k a s'.

Declare Scope st_scope.
Delimit Scope st_scope with st.
Notation "x <- m ;; k" := (bind m (fun x => k))
  (at level 61, m at next level, right associativity) : st_scope.
Notation "' pat <- m ;; k" := (bind m (fun x => match x with pat => k end))
  (at level 61, pat pattern, m at next level, right associativity) : st_scope.
Notation "m ;;; k" := (bind m (fun _ => k))
  (at level 61, right associativity) : st_scope.

(** C's [a || b] on two effectful operands: [b] runs only when [a] is false. *)
Definition orelse {S : Type} (a b : ST S bool) : ST S bool :=
  bind a (fun x => if x then ret true else b).

Definition fmap {S A B : Type} (f : A -> B) (m : ST S A) : ST S B :=
  bind m (fun a => ret (f a)).

(* ====================================================================== *)
(** * avr_pdi.c *)
(* ====================================================================== *)

Module AVR.

Definition IR_PDI : Z := 0x7.
Definition IR_BYPASS : Z := 0xF.

Definition PDI_BREAK : Z := 0xBB.
Definition PDI_DELAY : Z := 0xDB.
Definition PDI_EMPTY : Z := 0xEB.

Definition PDI_LDCS : Z := 0x80.
Definition PDI_STCS : Z := 0xC0.

Definition PDI_REG_STATUS : Z := 0.
Definition PDI_REG_RESET : Z := 1.
Definition PDI_REG_CTRL : Z := 2.
Definition PDI_REG_R3 : Z := 3.
Definition PDI_REG_R4 : Z := 4.

Definition PDI_RESET : Z := 0x59.

(** Modelled from the spec: [enum target_halt_reason] is declared in
    target.h; the spec lists not-halted/running, halted-by-request and
    halted-by-other-cause. *)
Inductive target_halt_reason : Type :=
| TARGET_HALT_RUNNING
| TARGET_HALT_REQUEST
| TARGET_HALT_OTHER.

(** [avr_pdi_t] (avr.h): the fields the two files use. *)
Record avr_pdi_t : Type := mk_avr_pdi {
  idcode : Z;
  dp_jd_index : Z;
  halt_reason : target_halt_reason
}.

Definition set_halt_reason (pdi : avr_pdi_t) (r : target_halt_reason) : avr_pdi_t :=
  mk_avr_pdi pdi.(idcode) pdi.(dp_jd_index) r.

(** ** The JTAG transport *)

(** What the driver asks of the scan chain, in the order it asks. *)
Inductive jtag_event : Type :=
| WriteIR (jd_index ir : Z)
| ShiftDR (jd_index dr_in : Z).

Definition jtag : Type := list jtag_event.

Definition is_shift (e : jtag_event) : bool :=
  match e with ShiftDR _ _ => true | WriteIR _ _ => false end.

(** The transport call counter: how many data-register shifts were issued. *)
Definition shift_count (h : jtag) : nat := List.length (filter is_shift h).

(** Modelled from the spec: [avr_jtag_shift_dr] is not part of these files.
    It is "a byte-wide data-register shift-and-capture primitive returning
    both success/failure and the captured response byte"; here it is any
    function of the transactions so far, the device index and the byte
    shifted in, giving the returned [bool] and the byte stored through
    [dr_out]. *)
Definition transport : Type := jtag -> Z -> Z -> bool * Z.

(** A transport that replays a fixed script, one entry per shift. *)
Definition scripted (script : list (bool * Z)) : transport :=
  fun h _ _ => nth (shift_count h) script (false, 0).

(** A transport that answers every shift with the same flag and byte. *)
Definition constant (flag : bool) (byte : Z) : transport :=
  fun _ _ _ => (flag, byte).

(** ** Exceptions *)

Inductive exception_type : Type := EXCEPTION_ERROR | EXCEPTION_TIMEOUT.

(** Modelled from the spec: [raise_exception] (exception.h) "raises a fatal,
    non-recoverable error"; control does not come back to the statement
    after the call. *)
Inductive outcome (A : Type) : Type :=
| Returned (a : A)
| Raised (type : exception_type) (msg : string).
Arguments Returned {A} a.
Arguments Raised {A} type msg.

(** ** The target object *)

(** The functions [avr_pdi_init] installs in the callback slots. *)
Inductive callback : Type :=
| avr_attach_cb
| avr_detach_cb
| avr_reset_cb
| avr_halt_request_cb
| avr_halt_poll_cb.

(** [target] (target_internal.h): the fields [avr_pdi_init] fills in.  There
    is one context, so [priv] only says whether it points to it, and
    [priv_free] whether [free] is installed. *)
Record target : Type := mk_target {
  cpuid : Z;
  part_id : Z;
  driver : string;
  core : string;
  priv : bool;
  priv_free : bool;
  attach : option callback;
  detach : option callback;
  reset : option callback;
  halt_request : option callback;
  halt_poll : option callback
}.

(** What [target_new] hands out on success: a zeroed object. *)
Definition target_zero : target :=
  mk_target 0 0 "" "" false false None None None None None.

(** The heap after [avr_pdi_init]: the context unless it was freed, and the
    target object if one was created. *)
Record binding : Type := mk_binding {
  context : option avr_pdi_t;
  bound : option target
}.

Section Protocol.

Variable avr_jtag_shift_dr : transport.

Definition shift_dr (jd_index dr_in : Z) : ST jtag (bool * Z) :=
  fun h =>
    let (r, out) := avr_jtag_shift_dr h jd_index dr_in in
    ((r, uint8 out), h ++ [ShiftDR jd_index dr_in]).

Definition jtag_dev_write_ir (jd_index ir : Z) : ST jtag unit :=
  fun h => (tt, h ++ [WriteIR jd_index ir]).

Local Open Scope st_scope.

(** [bool avr_pdi_reg_write(avr_pdi_t *pdi, uint8_t reg, uint8_t value)] *)
Definition avr_pdi_reg_write (pdi : avr_pdi_t) (reg value : Z) : ST jtag bool :=
  let command := uint8 (Z.lor PDI_STCS reg) in
  if 16 <=? reg then ret false else
  '(r1, result) <- shift_dr pdi.(dp_jd_index) command ;;
  if r1 then ret false else
  if negb (result =? PDI_EMPTY) then ret false else
  '(r2, result) <- shift_dr pdi.(dp_jd_index) value ;;
  if r2 then ret false else
  ret (result =? PDI_EMPTY).

(** [uint8_t avr_pdi_reg_read(avr_pdi_t *pdi, uint8_t reg)] *)
Definition avr_pdi_reg_read (pdi : avr_pdi_t) (reg : Z) : ST jtag Z :=
  let command := uint8 (Z.lor PDI_LDCS reg) in
  if 16 <=? reg then ret 0xFF else
  '(r1, result) <- shift_dr pdi.(dp_jd_index) command ;;
  if r1 then ret 0xFF else
  if negb (result =? PDI_EMPTY) then ret 0xFF else
  '(r2, result) <- shift_dr pdi.(dp_jd_index) command ;;
  if negb r2 then ret 0xFF else
  ret result.

(** The condition of the [if] in [avr_halt_request]: true when a step of the
    handshake deviates.  The operands run left to right and stop at the first
    one that is true. *)
Definition halt_handshake_failed (pdi : avr_pdi_t) : ST jtag bool :=
  orelse (fmap negb (avr_pdi_reg_write pdi PDI_REG_R4 1))
 (orelse (fmap (fun v => negb (v =? 0x10)) (avr_pdi_reg_read pdi PDI_REG_R3))
 (orelse (fmap negb (avr_pdi_reg_write pdi PDI_REG_RESET 0))
 (orelse (fmap (fun v => negb (v =? 0x14)) (avr_pdi_reg_read pdi PDI_REG_R3))
         (fmap (fun v => negb (v =? 0x04)) (avr_pdi_reg_read pdi PDI_REG_R3))))).

(** [static void avr_halt_request(target *t)], with [pdi = t->priv].  The
    message is written without its final newline. *)
Definition avr_halt_request (pdi : avr_pdi_t) (h : jtag)
  : outcome unit * avr_pdi_t * jtag :=
  let (failed, h') := halt_handshake_failed pdi h in
  if failed
  then (Raised EXCEPTION_ERROR "Error halting device, device in incorrect state", pdi, h')
  else (Returned tt, set_halt_reason pdi TARGET_HALT_REQUEST, h').

(** [static void avr_reset(target *t)] *)
Definition avr_reset (pdi : avr_pdi_t) (h : jtag)
  : outcome unit * avr_pdi_t * jtag :=
  let (failed, h') :=
    orelse (fmap negb (avr_pdi_reg_write pdi PDI_REG_RESET PDI_RESET))
           (fmap (fun v => negb (v =? 0x00)) (avr_pdi_reg_read pdi PDI_REG_STATUS)) h in
  if failed
  then (Raised EXCEPTION_ERROR "Error resetting device, device in incorrect state", pdi, h')
  else (Returned tt, pdi, h').

(** [static enum target_halt_reason avr_halt_poll(target *t, target_addr *watch)] *)
Definition avr_halt_poll (pdi : avr_pdi_t) : target_halt_reason := pdi.(halt_reason).

(** [bool avr_attach(target *t)] and [void avr_detach(target *t)] *)
Definition avr_attach (pdi : avr_pdi_t) : ST jtag bool :=
  jtag_dev_write_ir pdi.(dp_jd_index) IR_PDI ;;; ret true.

Definition avr_detach (pdi : avr_pdi_t) : ST jtag unit :=
  jtag_dev_write_ir pdi.(dp_jd_index) IR_BYPASS.

(** ** Binding a context to a target object *)

(** [target_new] (target.c) allocates and may fail; [atxmega_probe]
    (atxmega.c) may change the target and, through [t->priv], the context. *)
Variable target_new : option target.
Variable atxmega_probe : target -> avr_pdi_t -> ST jtag (bool * target * avr_pdi_t).

(** [bool avr_pdi_init(avr_pdi_t *pdi)].  The debug output is left out. *)
Definition avr_pdi_init (pdi : avr_pdi_t) : ST jtag (bool * binding) :=
  if Z.land pdi.(idcode) 0x0FFFF000 =? 0
  then ret (false, mk_binding None None)
  else
    jtag_dev_write_ir pdi.(dp_jd_index) IR_BYPASS ;;;
    match target_new with
    | None => ret (false, mk_binding (Some pdi) None)
    | Some t0 =>
        let t := mk_target pdi.(idcode)
                   (Z.land (Z.shiftr pdi.(idcode) 12) 0xFFFF)
                   "Atmel AVR" "AVR" true true
                   (Some avr_attach_cb) (Some avr_detach_cb) (Some avr_reset_cb)
                   (Some avr_halt_request_cb) (Some avr_halt_poll_cb) in
        '(recognised, t', pdi') <- atxmega_probe t pdi ;;
        if recognised
        then ret (true, mk_binding (Some pdi') (Some t'))
        else ret (true, mk_binding (Some (set_halt_reason pdi' TARGET_HALT_RUNNING)) (Some t'))
    end.

(** ** avr_jtagdp.c *)

(** Whether [calloc] succeeds, the ID codes recorded in [jtag_devs]
    (jtag_scan.h) by device index, and the [halt_reason] whose value is zero,
    which is what a context fresh from [calloc] holds. *)
Variable calloc_ok : bool.
Variable jd_idcode : Z -> Z.
Variable halt_reason_zero : target_halt_reason.

(** [void avr_jtag_pdi_handler(uint8_t jd_index, uint32_t j_idcode)].  The
    result is the heap it leaves behind. *)
Definition avr_jtag_pdi_handler (jd_index j_idcode : Z) : ST jtag binding :=
  if negb calloc_ok then ret (mk_binding None None)
  else
    let pdi := mk_avr_pdi (uint32 (jd_idcode jd_index)) jd_index halt_reason_zero in
    '(_, heap) <- avr_pdi_init pdi ;;
    ret heap.

End Protocol.

End AVR.

(* ====================================================================== *)
(** * The C library's [strtoul] *)
(* ====================================================================== *)

Module Libc.

Definition code (c : ascii) : Z := Z.of_nat (nat_of_ascii c).

Definition isspace (c : ascii) : bool :=
  (code c =? 32) || ((9 <=? code c) && (code c <=? 13)).

(** The value of a character as a digit, in any base up to 36. *)
Definition digit_value (c : ascii) : option Z :=
  let n := code c in
  if (48 <=? n) && (n <=? 57) then Some (n - 48)
  else if (97 <=? n) && (n <=? 122) then Some (n - 97 + 10)
  else if (65 <=? n) && (n <=? 90) then Some (n - 65 + 10)
  else None.

Definition is_digit_of (base : Z) (c : ascii) : bool :=
  match digit_value c with
  | Some d => d <? base
  | None => false
  end.

Fixpoint skip_space (s : string) : string :=
  match s with
  | String c s' => if isspace c then skip_space s' else s
  | EmptyString => s
  end.

(** The longest prefix of digits of [base], accumulated from [acc]. *)
Fixpoint digits (base : Z) (s : string) (acc : Z) : Z :=
  match s with
  | String c s' =>
      match digit_value c with
      | Some d => if d <? base then digits base s' (acc * base + d) else acc
      | None => acc
      end
  | EmptyString => acc
  end.

(** [strtoul(s, NULL, 0)] for an [unsigned long] whose largest value is
    [ULONG_MAX]: white space, an optional sign, the base taken from the
    prefix ([0x] hexadecimal, [0] octal, decimal otherwise), then the digits.
    No digits give 0, a value out of range gives [ULONG_MAX], and a minus
    sign negates in the unsigned type. *)
Definition strtoul (ULONG_MAX : Z) (s : string) : Z :=
  let s := skip_space s in
  let (neg, s) :=
    match s with
    | String "-" s' => (true, s')
    | String "+" s' => (false, s')
    | _ => (false, s)
    end in
  let magnitude :=
    match s with
    | String "0" (String x (String d s')) =>
        if ((x =? "x") || (x =? "X"))%char && is_digit_of 16 d
        then digits 16 (String d s') 0
        else digits 8 s 0
    | String "0" _ => digits 8 s 0
    | _ => digits 10 s 0
    end in
  if ULONG_MAX <? magnitude then ULONG_MAX
  else if neg then (ULONG_MAX + 1 - magnitude) mod (ULONG_MAX + 1)
  else magnitude.

End Libc.

(* ====================================================================== *)
(** * lpc43xx.c *)
(* ====================================================================== *)

Module LPC43xx.

Definition LPC43xx_CHIPID : Z := 0x40043200.
Definition LPC43xx_CHIPID_FAMILY_MASK : Z := 0x0fffffff.
Definition LPC43xx_CHIPID_FAMILY_CODE : Z := 0x0906002b.
Definition LPC43xx_CHIPID_CHIP_MASK : Z := 0xf0000000.
Definition LPC43xx_CHIPID_CHIP_SHIFT : Z := 28.
Definition LPC43xx_CHIPID_CORE_TYPE_MASK : Z := 0xff0ffff0.
Definition LPC43xx_CHIPID_CORE_TYPE_M0 : Z := 0x4100c200.
Definition LPC43xx_CHIPID_CORE_TYPE_M4 : Z := 0x4100c240.

Definition IAP_ENTRYPOINT_LOCATION : Z := 0x10400100.

Definition LPC43xx_ETBAHB_SRAM_BASE : Z := 0x2000c000.
Definition LPC43xx_ETBAHB_SRAM_SIZE : Z := 16 * 1024.

Definition LPC43xx_CGU_BASE : Z := 0x40050000.
Definition LPC43xx_CGU_CPU_CLK : Z := LPC43xx_CGU_BASE + 0x06C.
Definition LPC43xx_CGU_BASE_CLK_AUTOBLOCK : Z := Z.shiftl 1 11.
Definition LPC43xx_CGU_BASE_CLK_SEL_IRC : Z := Z.shiftl 1 24.

Definition LPC43xx_AIRCR : Z := 0xe000ed0c.
Definition LPC43xx_AIRCR_RESET : Z := 0x05fA0004.

Definition LPC43xx_WDT_MODE : Z := 0x40080000.
Definition LPC43xx_WDT_CNT : Z := 0x40080004.
Definition LPC43xx_WDT_FEED : Z := 0x40080008.
Definition LPC43xx_WDT_PERIOD_MAX : Z := 0xffffff.
Definition LPC43xx_WDT_PROTECT : Z := Z.shiftl 1 4.

Definition IAP_RAM_SIZE : Z := LPC43xx_ETBAHB_SRAM_SIZE.
Definition IAP_RAM_BASE : Z := LPC43xx_ETBAHB_SRAM_BASE.

Definition IAP_PGM_CHUNKSIZE : Z := 4096.

Definition FLASH_NUM_BANK : Z := 2.
Definition FLASH_NUM_SECTOR : Z := 15.

(** The ROM commands the file uses ([enum] in lpc_common.h). *)
Inductive iap_cmd : Type :=
| IAP_CMD_INIT
| IAP_CMD_PREPARE
| IAP_CMD_ERASE
| IAP_CMD_SET_ACTIVE_BANK.

(** What the driver does to the target and the console, in order. *)
Inductive event : Type :=
| MemRead32 (addr : Z)
| MemWrite32 (addr value : Z)
| IapCall (cmd : iap_cmd) (args : list Z)
| FlashErase (addr len : Z)
| Printf (msg : string)
| TimeoutSet (ms : Z)
| PrintProgress.

Definition trace : Type := list event.

(** The functions stored in function-pointer fields. *)
Inductive fn : Type :=
| lpc43xx_flash_erase_fn
| lpc43xx_wdt_kick_fn
| lpc43xx_mass_erase_fn
| lpc43xx_cmd_reset_fn
| lpc43xx_cmd_mkboot_fn.

(** [struct lpc_flash] (lpc_common.h) with its embedded [struct target_flash f]. *)
Record lpc_flash : Type := mk_lpc_flash {
  f_start : Z;
  f_length : Z;
  f_blocksize : Z;
  f_buf_size : Z;
  f_erase : fn;
  bank : Z;
  base_sector : Z;
  iap_entry : Z;
  iap_ram : Z;
  iap_msp : Z;
  wdt_kick : fn
}.

(** [struct command_s] *)
Record command_s : Type := mk_command {
  cmd : string;
  handler : fn;
  help : string
}.

Definition lpc43xx_cmd_list : list command_s :=
  [ mk_command "reset" lpc43xx_cmd_reset_fn "Reset target";
    mk_command "mkboot" lpc43xx_cmd_mkboot_fn "Make flash bank bootable" ].

(** Modelled from the spec: the generic target object with its "flash-region
    registration, RAM-region registration, command-table registration" and
    the "platform option flag"; each registry keeps its entries in the order
    of registration. *)
Record target : Type := mk_target {
  cpuid : Z;
  driver : string;
  mass_erase : option fn;
  target_options : Z;
  ram : list (Z * Z);
  flash : list lpc_flash;
  commands : list (string * list command_s)
}.

Definition target_add_ram (t : target) (start len : Z) : target :=
  mk_target t.(cpuid) t.(driver) t.(mass_erase) t.(target_options)
            (t.(ram) ++ [(start, len)]) t.(flash) t.(commands).

Definition target_add_flash (t : target) (f : lpc_flash) : target :=
  mk_target t.(cpuid) t.(driver) t.(mass_erase) t.(target_options)
            t.(ram) (t.(flash) ++ [f]) t.(commands).

Definition target_add_commands (t : target) (l : list command_s) (name : string) : target :=
  mk_target t.(cpuid) t.(driver) t.(mass_erase) t.(target_options)
            t.(ram) t.(flash) (t.(commands) ++ [(name, l)]).

Section Driver.

(** The collaborators outside the file.  Each answers from the transactions
    issued so far: [target_mem_read32] the word read, [lpc_iap_call] the ROM
    status, [lpc_flash_erase] the shared erase primitive's result. *)
Variable target_mem_read32_value : trace -> Z -> Z.
Variable lpc_iap_call_status : trace -> iap_cmd -> list Z -> Z.
Variable lpc_flash_erase_result : trace -> Z -> Z -> Z.

(** Constants of lpc_common.h and cortexm.h. *)
Variable IAP_STATUS_CMD_SUCCESS : Z.
Variable CPU_CLK_KHZ : Z.
Variable CORTEXM_TOPT_INHIBIT_NRST : Z.

Definition target_mem_read32 (addr : Z) : ST trace Z :=
  fun h => (uint32 (target_mem_read32_value h addr), h ++ [MemRead32 addr]).

Definition target_mem_write32 (addr value : Z) : ST trace unit :=
  fun h => (tt, h ++ [MemWrite32 addr value]).

(** The descriptor handed to [lpc_iap_call] is always [t->flash]; it carries
    the trampoline addresses and is not recorded with the call. *)
Definition lpc_iap_call (cmd : iap_cmd) (args : list Z) : ST trace Z :=
  fun h => (lpc_iap_call_status h cmd args, h ++ [IapCall cmd args]).

Definition lpc_flash_erase (addr len : Z) : ST trace Z :=
  fun h => (lpc_flash_erase_result h addr len, h ++ [FlashErase addr len]).

(** Messages are written without their final newline. *)
Definition tc_printf (msg : string) : ST trace unit :=
  fun h => (tt, h ++ [Printf msg]).

Definition platform_timeout_set (ms : Z) : ST trace unit :=
  fun h => (tt, h ++ [TimeoutSet ms]).

Definition target_print_progress : ST trace unit :=
  fun h => (tt, h ++ [PrintProgress]).

Local Open Scope st_scope.

(** [static void lpc43xx_add_flash(...)].  [lpc_add_flash] registers the
    descriptor and returns a pointer to it, through which the remaining
    fields are then set; the registry holds the descriptor as it ends up. *)
Definition lpc43xx_add_flash (t : target) (iap_entry bank base_sector addr len erasesize : Z)
  : target :=
  target_add_flash t
    (mk_lpc_flash addr len erasesize IAP_PGM_CHUNKSIZE lpc43xx_flash_erase_fn
       (uint8 bank) (uint8 base_sector) iap_entry
       IAP_RAM_BASE (IAP_RAM_BASE + IAP_RAM_SIZE) lpc43xx_wdt_kick_fn).

(** [static void lpc43xx_detect_flash(target *const t, const uint32_t core_type)] *)
Definition lpc43xx_detect_flash (t : target) (core_type : Z) : ST trace target :=
  iap_entry <- target_mem_read32 IAP_ENTRYPOINT_LOCATION ;;
  let t := target_add_ram t 0 0x1A000000 in
  let t := lpc43xx_add_flash t iap_entry 0 0 0x1A000000 0x10000 0x2000 in
  let t := lpc43xx_add_flash t iap_entry 0 8 0x1A010000 0x70000 0x10000 in
  let t := target_add_ram t 0x1A080000 0xF80000 in
  let t := lpc43xx_add_flash t iap_entry 1 0 0x1B000000 0x10000 0x2000 in
  let t := lpc43xx_add_flash t iap_entry 1 8 0x1B010000 0x70000 0x10000 in
  let t := target_add_commands t lpc43xx_cmd_list "LPC43xx" in
  let t := target_add_ram t 0x1B080000 0xE4F80000 in
  ret (mk_target t.(cpuid) t.(driver) t.(mass_erase)
         (Z.lor t.(target_options) CORTEXM_TOPT_INHIBIT_NRST)
         t.(ram) t.(flash) t.(commands)).

(** [static void lpc43xx_detect_flashless(target *const t, const uint32_t core_type)] *)
Definition lpc43xx_detect_flashless (t : target) (core_type : Z) : ST trace target :=
  ret t.

(** [bool lpc43xx_probe(target *const t)] *)
Definition lpc43xx_probe (t : target) : ST trace (bool * target) :=
  chipid <- target_mem_read32 LPC43xx_CHIPID ;;
  if negb (Z.land chipid LPC43xx_CHIPID_FAMILY_MASK =? LPC43xx_CHIPID_FAMILY_CODE)
  then ret (false, t)
  else
    let core_type := Z.land t.(cpuid) LPC43xx_CHIPID_CORE_TYPE_MASK in
    let chip_code :=
      Z.shiftr (Z.land chipid LPC43xx_CHIPID_CHIP_MASK) LPC43xx_CHIPID_CHIP_SHIFT in
    let t := mk_target t.(cpuid) "LPC43xx" (Some lpc43xx_mass_erase_fn)
               t.(target_options) t.(ram) t.(flash) t.(commands) in
    if (chip_code =? 4) || (chip_code =? 7)
    then t' <- lpc43xx_detect_flash t core_type ;; ret (true, t')
    else if (chip_code =? 5) || (chip_code =? 6)
    then t' <- lpc43xx_detect_flashless t core_type ;; ret (true, t')
    else ret (false, t).

(** [static void lpc43xx_wdt_set_period(target *t)] *)
Definition lpc43xx_wdt_set_period : ST trace unit :=
  wdt_mode <- target_mem_read32 LPC43xx_WDT_MODE ;;
  if negb (wdt_mode =? 0) && (Z.land wdt_mode LPC43xx_WDT_PROTECT =? 0)
  then target_mem_write32 LPC43xx_WDT_CNT LPC43xx_WDT_PERIOD_MAX
  else ret tt.

(** [static void lpc43xx_wdt_kick(target *t)] *)
Definition lpc43xx_wdt_kick : ST trace unit :=
  wdt_mode <- target_mem_read32 LPC43xx_WDT_MODE ;;
  if negb (wdt_mode =? 0)
  then target_mem_write32 LPC43xx_WDT_FEED 0xAA ;;;
       target_mem_write32 LPC43xx_WDT_FEED 0xFF
  else ret tt.

(** [static bool lpc43xx_flash_init(struct target_flash *const flash)] *)
Definition lpc43xx_flash_init : ST trace bool :=
  lpc43xx_wdt_set_period ;;;
  target_mem_write32 LPC43xx_CGU_CPU_CLK
    (Z.lor LPC43xx_CGU_BASE_CLK_AUTOBLOCK LPC43xx_CGU_BASE_CLK_SEL_IRC) ;;;
  status <- lpc_iap_call IAP_CMD_INIT [] ;;
  ret (status =? IAP_STATUS_CMD_SUCCESS).

(** [static int lpc43xx_flash_erase(struct target_flash *f, target_addr addr, size_t len)] *)
Definition lpc43xx_flash_erase (addr len : Z) : ST trace Z :=
  ok <- lpc43xx_flash_init ;;
  if negb ok then ret (-1) else lpc_flash_erase addr len.

(** One turn of the [for] loop of [lpc43xx_mass_erase]: true when the
    function returns false from inside the loop. *)
Definition mass_erase_bank (bank : Z) : ST trace bool :=
  orelse (fmap (fun st => negb (st =? 0))
            (lpc_iap_call IAP_CMD_PREPARE [0; FLASH_NUM_SECTOR - 1; bank]))
         (fmap (fun st => negb (st =? 0))
            (lpc_iap_call IAP_CMD_ERASE [0; FLASH_NUM_SECTOR - 1; CPU_CLK_KHZ; bank])).

(** [for (size_t bank = from; bank < FLASH_NUM_BANK; ++bank) ...], with the
    number of turns left as the structural argument. *)
Fixpoint mass_erase_loop (turns : nat) (bank : Z) : ST trace bool :=
  match turns with
  | O => ret true
  | S turns' =>
      failed <- mass_erase_bank bank ;;
      if failed then ret false
      else target_print_progress ;;; mass_erase_loop turns' (bank + 1)
  end.

(** [static bool lpc43xx_mass_erase(target *t)] *)
Definition lpc43xx_mass_erase : ST trace bool :=
  platform_timeout_set 500 ;;;
  _ <- lpc43xx_flash_init ;;
  mass_erase_loop (Z.to_nat FLASH_NUM_BANK) 0.

(** [static bool lpc43xx_cmd_reset(target *t, int argc, const char **argv)] *)
Definition lpc43xx_cmd_reset (argc : Z) (argv : list string) : ST trace bool :=
  target_mem_write32 LPC43xx_AIRCR LPC43xx_AIRCR_RESET ;;;
  ret true.

(** The largest [unsigned long] of the platform the probe firmware is built
    for. *)
Variable ULONG_MAX : Z.

(** [static bool lpc43xx_cmd_mkboot(target *t, int argc, const char **argv)] *)
Definition lpc43xx_cmd_mkboot (argc : Z) (argv : list string) : ST trace bool :=
  if negb (argc =? 2)
  then tc_printf "Expected bank argument 0 or 1." ;;; ret false
  else
    let bank := uint32 (Libc.strtoul ULONG_MAX (nth 1 argv ""%string)) in
    if 1 <? bank
    then tc_printf "Unexpected bank number, should be 0 or 1." ;;; ret false
    else
      _ <- lpc43xx_flash_init ;;
      status <- lpc_iap_call IAP_CMD_SET_ACTIVE_BANK [bank; CPU_CLK_KHZ] ;;
      if negb (status =? 0)
      then tc_printf "Set bootable failed." ;;; ret false
      else tc_printf "Set bootable OK." ;;; ret true.

End Driver.

End LPC43xx.

(* ====================================================================== *)
(** * Statements about the drivers *)
(* ====================================================================== *)

(** ** Vocabulary of the statements *)

(** The five steps of the halt handshake, each with the answer it must give,
    chained through the transactions they issue; [h'] is the chain afterwards. *)
Definition handshake_ok (tr : AVR.transport) (pdi : AVR.avr_pdi_t) (h h' : AVR.jtag) : Prop :=
  exists h1 h2 h3 h4,
    AVR.avr_pdi_reg_write tr pdi AVR.PDI_REG_R4 1 h = (true, h1) /\
    AVR.avr_pdi_reg_read tr pdi AVR.PDI_REG_R3 h1 = (0x10, h2) /\
    AVR.avr_pdi_reg_write tr pdi AVR.PDI_REG_RESET 0 h2 = (true, h3) /\
    AVR.avr_pdi_reg_read tr pdi AVR.PDI_REG_R3 h3 = (0x14, h4) /\
    AVR.avr_pdi_reg_read tr pdi AVR.PDI_REG_R3 h4 = (0x04, h').

(** A transport script on which every step of the handshake answers as
    required, as [avr_pdi_reg_write] and [avr_pdi_reg_read] test the answers. *)
Definition halting_script : list (bool * Z) :=
  [ (false, 0xEB); (false, 0xEB);
    (false, 0xEB); (true, 0x10);
    (false, 0xEB); (false, 0xEB);
    (false, 0xEB); (true, 0x14);
    (false, 0xEB); (true, 0x04) ].

Definition pdi0 : AVR.avr_pdi_t := AVR.mk_avr_pdi 0x0974C03F 0 AVR.TARGET_HALT_RUNNING.

(** The ROM calls among the transactions. *)
Definition is_iap_call (e : LPC43xx.event) : bool :=
  match e with LPC43xx.IapCall _ _ => true | _ => false end.

Definition iap_calls (h : LPC43xx.trace) : list LPC43xx.event := filter is_iap_call h.

(** The memory writes to one address among the transactions. *)
Definition is_write_to (addr : Z) (e : LPC43xx.event) : bool :=
  match e with LPC43xx.MemWrite32 a _ => a =? addr | _ => false end.

Definition writes_to (addr : Z) (h : LPC43xx.trace) : list LPC43xx.event :=
  filter (is_write_to addr) h.

(** A command, run after the transactions [h], that is turned down before the
    ROM is called. *)
Definition rejected_without_rom_call (h : LPC43xx.trace) (r : bool * LPC43xx.trace) : Prop :=
  fst r = false /\ iap_calls (snd r) = iap_calls h.

(** The two ROM calls of a mass erase, over sectors 0 to 14 of a bank. *)
Definition PREPARE (bank : Z) : LPC43xx.event :=
  LPC43xx.IapCall LPC43xx.IAP_CMD_PREPARE [0; 14; bank].

Definition ERASE (clk bank : Z) : LPC43xx.event :=
  LPC43xx.IapCall LPC43xx.IAP_CMD_ERASE [0; 14; clk; bank].

(** Whether a watchdog mode word reads as enabled, and as hardware-locked. *)
Definition wdt_enabled (wdt_mode : Z) : bool := negb (wdt_mode =? 0).
Definition wdt_locked (wdt_mode : Z) : bool :=
  negb (Z.land wdt_mode LPC43xx.LPC43xx_WDT_PROTECT =? 0).

(** What [lpc43xx_flash_init] does before it calls the ROM, for a watchdog
    mode word: the read of the mode, the write of the longest period if the
    watchdog is enabled and not locked, the write that selects the internal
    clock. *)
Definition flash_init_before_call (wdt_mode : Z) : LPC43xx.trace :=
  [LPC43xx.MemRead32 LPC43xx.LPC43xx_WDT_MODE] ++
  (if wdt_enabled wdt_mode && negb (wdt_locked wdt_mode)
   then [LPC43xx.MemWrite32 LPC43xx.LPC43xx_WDT_CNT 0xffffff]
   else []) ++
  [LPC43xx.MemWrite32 LPC43xx.LPC43xx_CGU_CPU_CLK 0x01000800].

(** The status the ROM gives to the initialize call of a [lpc43xx_flash_init]
    that starts after the transactions [h]. *)
Definition init_status (rd : LPC43xx.trace -> Z -> Z)
  (iap : LPC43xx.trace -> LPC43xx.iap_cmd -> list Z -> Z) (h : LPC43xx.trace) : Z :=
  iap (h ++ flash_init_before_call (uint32 (rd h LPC43xx.LPC43xx_WDT_MODE)))
      LPC43xx.IAP_CMD_INIT [].

(** The flash-bearing layout: three RAM windows, two banks of a fine-grained
    and a coarse-grained flash region each, the maintenance commands and the
    option that inhibits the reset pin. *)
Definition flash_region (iap_entry bank base_sector addr len blocksize : Z)
  : LPC43xx.lpc_flash :=
  LPC43xx.mk_lpc_flash addr len blocksize 4096 LPC43xx.lpc43xx_flash_erase_fn
    bank base_sector iap_entry 0x2000c000 0x20010000 LPC43xx.lpc43xx_wdt_kick_fn.

Definition flash_bearing (t : LPC43xx.target) (iap_entry inhibit_nrst : Z) : LPC43xx.target :=
  LPC43xx.mk_target (LPC43xx.cpuid t) "LPC43xx" (Some LPC43xx.lpc43xx_mass_erase_fn)
    (Z.lor (LPC43xx.target_options t) inhibit_nrst)
    (LPC43xx.ram t ++
       [(0, 0x1A000000); (0x1A080000, 0xF80000); (0x1B080000, 0xE4F80000)])
    (LPC43xx.flash t ++
       [ flash_region iap_entry 0 0 0x1A000000 0x10000 0x2000;
         flash_region iap_entry 0 8 0x1A010000 0x70000 0x10000;
         flash_region iap_entry 1 0 0x1B000000 0x10000 0x2000;
         flash_region iap_entry 1 8 0x1B010000 0x70000 0x10000 ])
    (LPC43xx.commands t ++ [("LPC43xx"%string, LPC43xx.lpc43xx_cmd_list)]).

(** The flash-less layout: the driver name and the mass-erase slot, nothing
    registered. *)
Definition flashless (t : LPC43xx.target) : LPC43xx.target :=
  LPC43xx.mk_target (LPC43xx.cpuid t) "LPC43xx" (Some LPC43xx.lpc43xx_mass_erase_fn)
    (LPC43xx.target_options t) (LPC43xx.ram t) (LPC43xx.flash t) (LPC43xx.commands t).

Definition chip_code_of (chipid : Z) : Z :=
  Z.shiftr (Z.land chipid LPC43xx.LPC43xx_CHIPID_CHIP_MASK) LPC43xx.LPC43xx_CHIPID_CHIP_SHIFT.

Definition target0 : LPC43xx.target := LPC43xx.mk_target 0x410FC241 "" None 0 [] [] [].

(** The instruction-register writes among the transactions of the chain. *)
Definition ir_writes (h : AVR.jtag) : AVR.jtag :=
  filter (fun e => negb (AVR.is_shift e)) h.

(** [h'] is [h] followed by at most [n] transactions, each of them a
    data-register shift on device [jd]. *)
Definition shifts_only (jd : Z) (n : nat) (h h' : AVR.jtag) : Prop :=
  exists issued,
    h' = h ++ issued /\
    (List.length issued <= n)%nat /\
    Forall (fun e => exists dr_in, e = AVR.ShiftDR jd dr_in) issued.

(** The bytes shifted in by a halt handshake that goes through, and by a
    reset that goes through. *)
Definition halt_shifts (jd : Z) : AVR.jtag :=
  map (AVR.ShiftDR jd) [0xC4; 1; 0x83; 0x83; 0xC1; 0; 0x83; 0x83; 0x83; 0x83].

Definition reset_shifts (jd : Z) : AVR.jtag :=
  map (AVR.ShiftDR jd) [0xC1; 0x59; 0x80; 0x80].

(** The progress reports and the console messages among the transactions. *)
Definition is_progress (e : LPC43xx.event) : bool :=
  match e with LPC43xx.PrintProgress => true | _ => false end.

Definition progress_count (h : LPC43xx.trace) : nat := List.length (filter is_progress h).

Definition is_printf (e : LPC43xx.event) : bool :=
  match e with LPC43xx.Printf _ => true | _ => false end.

Definition printf_count (h : LPC43xx.trace) : nat := List.length (filter is_printf h).

(** The transactions that reach the target: everything but console messages,
    progress reports and the setting of the progress timer. *)
Definition touches_target (e : LPC43xx.event) : bool :=
  match e with
  | LPC43xx.MemRead32 _ | LPC43xx.MemWrite32 _ _
  | LPC43xx.IapCall _ _ | LPC43xx.FlashErase _ _ => true
  | LPC43xx.Printf _ | LPC43xx.TimeoutSet _ | LPC43xx.PrintProgress => false
  end.

Definition is_mem_read (e : LPC43xx.event) : bool :=
  match e with LPC43xx.MemRead32 _ => true | _ => false end.

(** Whether [prev] is the PREPARE call for the sectors [lo] to [hi] of [bank]. *)
Definition is_prepare_for (lo hi bank : Z) (prev : option LPC43xx.event) : bool :=
  match prev with
  | Some (LPC43xx.IapCall LPC43xx.IAP_CMD_PREPARE [lo'; hi'; bank']) =>
      (lo' =? lo) && (hi' =? hi) && (bank' =? bank)
  | _ => false
  end.

(** Whether every ERASE call among the transactions comes right after the
    PREPARE call for the same sectors of the same bank; [prev] is the
    transaction before the first one. *)
Fixpoint erases_prepared (prev : option LPC43xx.event) (h : LPC43xx.trace) : bool :=
  match h with
  | [] => true
  | e :: rest =>
      match e with
      | LPC43xx.IapCall LPC43xx.IAP_CMD_ERASE [lo; hi; _; bank] => is_prepare_for lo hi bank prev
      | LPC43xx.IapCall LPC43xx.IAP_CMD_ERASE _ => false
      | _ => true
      end && erases_prepared (Some e) rest
  end.

(** The banks named by the PREPARE and ERASE calls among the transactions. *)
Fixpoint erase_banks (h : LPC43xx.trace) : list Z :=
  match h with
  | [] => []
  | LPC43xx.IapCall LPC43xx.IAP_CMD_PREPARE [_; _; bank] :: rest => bank :: erase_banks rest
  | LPC43xx.IapCall LPC43xx.IAP_CMD_ERASE [_; _; _; bank] :: rest => bank :: erase_banks rest
  | _ :: rest => erase_banks rest
  end.

(** What a run of the erase loop over [turns] banks from [bank], with result
    [ok], has issued. *)
Definition loop_invariants (turns : nat) (bank : Z) (ok : bool) (issued : LPC43xx.trace)
  : Prop :=
  (forall prev, erases_prepared prev issued = true) /\
  (progress_count issued <= turns)%nat /\
  (ok = true <-> progress_count issued = turns) /\
  (List.length (iap_calls issued) <= 2 * turns)%nat /\
  (ok = true -> List.length (iap_calls issued) = (2 * turns)%nat) /\
  Forall (fun b => bank <= b < bank + Z.of_nat turns) (erase_banks issued) /\
  filter touches_target issued = iap_calls issued.

(** Whether a bank argument does not start with a number: it is empty, or its
    first character is neither white space nor a sign nor a decimal digit. *)
Definition starts_no_number (s : string) : bool :=
  match s with
  | EmptyString => true
  | String c _ =>
      negb (Libc.isspace c) && negb (c =? "-")%char && negb (c =? "+")%char &&
      negb (Libc.is_digit_of 10 c)
  end.

(** Whether the segments (start, length) follow one another from [from]
    without gap or overlap, and where they end. *)
Fixpoint tiles (from : Z) (segments : list (Z * Z)) : option Z :=
  match segments with
  | [] => Some from
  | (start, len) :: rest =>
      if (start =? from) && (0 <? len) then tiles (start + len) rest else None
  end.

(** Insertion of a segment into a list ordered by start address, and the
    RAM windows and flash regions of a target in address order. *)
Fixpoint insert_segment (s : Z * Z) (l : list (Z * Z)) : list (Z * Z) :=
  match l with
  | [] => [s]
  | x :: rest => if fst s <=? fst x then s :: l else x :: insert_segment s rest
  end.

Definition address_map (t : LPC43xx.target) : list (Z * Z) :=
  fold_right insert_segment []
    (LPC43xx.ram t ++
     map (fun f => (LPC43xx.f_start f, LPC43xx.f_length f)) (LPC43xx.flash t)).

(** The sector that follows the regions of [bank] among [regions], if each
    of them starts at the sector where the one before ends and is a whole
    number of erase blocks long. *)
Fixpoint sectors_from (next bank : Z) (regions : list LPC43xx.lpc_flash) : option Z :=
  match regions with
  | [] => Some next
  | f :: rest =>
      if LPC43xx.bank f =? bank
      then if (LPC43xx.base_sector f =? next) && (0 <? LPC43xx.f_blocksize f) &&
              (LPC43xx.f_length f mod LPC43xx.f_blocksize f =? 0)
           then sectors_from (next + LPC43xx.f_length f / LPC43xx.f_blocksize f) bank rest
           else None
      else sectors_from next bank rest
  end.

(** ** The state monad *)

Lemma orelse_true {S : Type} (a b : ST S bool) (s s' : S) :
  a s = (true, s') -> orelse a b s = (true, s').
Proof. unfold orelse, bind, ret; intros ->; reflexivity. Qed.

Lemma orelse_false {S : Type} (a b : ST S bool) (s s' : S) :
  a s = (false, s') -> orelse a b s = b s'.
Proof. unfold orelse, bind, ret; intros ->; reflexivity. Qed.

Lemma fmap_run {S A B : Type} (f : A -> B) (m : ST S A) (s s' : S) (a : A) :
  m s = (a, s') -> fmap f m s = (f a, s').
Proof. unfold fmap, bind, ret; intros ->; reflexivity. Qed.

(** ** avr_pdi.c: register access *)

Section RegisterAccess.

Variable tr : AVR.transport.
Variable pdi : AVR.avr_pdi_t.

Lemma reg_write_out_of_range (reg value : Z) (h : AVR.jtag) :
  16 <= reg -> AVR.avr_pdi_reg_write tr pdi reg value h = (false, h).
Proof.
  intros Hreg. unfold AVR.avr_pdi_reg_write.
  destruct (Z.leb_spec 16 reg); [reflexivity | lia].
Qed.

Lemma reg_read_out_of_range (reg : Z) (h : AVR.jtag) :
  16 <= reg -> AVR.avr_pdi_reg_read tr pdi reg h = (0xFF, h).
Proof.
  intros Hreg. unfold AVR.avr_pdi_reg_read.
  destruct (Z.leb_spec 16 reg); [reflexivity | lia].
Qed.

(** The value and the chain of a read in range, from the two answers of the
    transport. *)
Lemma reg_read_in_range (reg : Z) (h : AVR.jtag) :
  reg < 16 ->
  let jd := AVR.dp_jd_index pdi in
  let command := uint8 (Z.lor AVR.PDI_LDCS reg) in
  let h1 := h ++ [AVR.ShiftDR jd command] in
  let h2 := h1 ++ [AVR.ShiftDR jd command] in
  AVR.avr_pdi_reg_read tr pdi reg h =
    if fst (tr h jd command) then (0xFF, h1)
    else if negb (uint8 (snd (tr h jd command)) =? AVR.PDI_EMPTY) then (0xFF, h1)
    else if negb (fst (tr h1 jd command)) then (0xFF, h2)
    else (uint8 (snd (tr h1 jd command)), h2).
Proof.
  intros Hreg jd command h1 h2. unfold AVR.avr_pdi_reg_read.
  destruct (Z.leb_spec 16 reg); [lia |].
  unfold bind, ret, AVR.shift_dr. fold jd command h1.
  destruct (tr h jd command) as [r1 b1]; cbn [fst snd].
  destruct r1; [reflexivity |].
  destruct (negb (uint8 b1 =? AVR.PDI_EMPTY)); [reflexivity |].
  fold h2. destruct (tr h1 jd command) as [r2 b2]; cbn [fst snd].
  destruct r2; reflexivity.
Qed.

Lemma reg_write_in_range (reg value : Z) (h : AVR.jtag) :
  reg < 16 ->
  let jd := AVR.dp_jd_index pdi in
  let command := uint8 (Z.lor AVR.PDI_STCS reg) in
  let h1 := h ++ [AVR.ShiftDR jd command] in
  let h2 := h1 ++ [AVR.ShiftDR jd value] in
  AVR.avr_pdi_reg_write tr pdi reg value h =
    if fst (tr h jd command) then (false, h1)
    else if negb (uint8 (snd (tr h jd command)) =? AVR.PDI_EMPTY) then (false, h1)
    else if fst (tr h1 jd value) then (false, h2)
    else (uint8 (snd (tr h1 jd value)) =? AVR.PDI_EMPTY, h2).
Proof.
  intros Hreg jd command h1 h2. unfold AVR.avr_pdi_reg_write.
  destruct (Z.leb_spec 16 reg); [lia |].
  unfold bind, ret, AVR.shift_dr. fold jd command h1.
  destruct (tr h jd command) as [r1 b1]; cbn [fst snd].
  destruct r1; [reflexivity |].
  destruct (negb (uint8 b1 =? AVR.PDI_EMPTY)); [reflexivity |].
  fold h2. destruct (tr h1 jd value) as [r2 b2]; cbn [fst snd].
  destruct r2; reflexivity.
Qed.

End RegisterAccess.

(** C7. For every [reg >= 16], [avr_pdi_reg_write] returns false and
    [avr_pdi_reg_read] returns the failure sentinel 0xFF, and neither issues
    a transaction: the chain is left as it was, so that from a fresh chain
    the count of data-register shifts stays zero. *)
Theorem reg_out_of_range_no_transaction
  (tr : AVR.transport) (pdi : AVR.avr_pdi_t) (reg value : Z) (h : AVR.jtag) :
  16 <= reg ->
  AVR.avr_pdi_reg_write tr pdi reg value h = (false, h) /\
  AVR.avr_pdi_reg_read tr pdi reg h = (0xFF, h) /\
  AVR.shift_count (snd (AVR.avr_pdi_reg_write tr pdi reg value [])) = 0%nat /\
  AVR.shift_count (snd (AVR.avr_pdi_reg_read tr pdi reg [])) = 0%nat.
Proof.
  intros Hreg.
  rewrite !reg_write_out_of_range, !reg_read_out_of_range by assumption.
  repeat split.
Qed.

Lemma reg_out_of_range_no_transaction_witness :
  16 <= 16 /\
  AVR.avr_pdi_reg_write (AVR.constant false 0xEB) pdi0 16 0x59 [] = (false, []) /\
  AVR.avr_pdi_reg_read (AVR.constant false 0xEB) pdi0 16 [] = (0xFF, []).
Proof.
  split; [lia |].
  pose proof (reg_out_of_range_no_transaction
                (AVR.constant false 0xEB) pdi0 16 0x59 [] ltac:(lia)) as H.
  split; [exact (proj1 H) | exact (proj1 (proj2 H))].
Defined.

(** C8. [avr_pdi_reg_read] returns 0xFF on each of its failure paths: a
    register index out of range, a first shift whose return value the
    function takes as a failure, a first captured byte that is not the
    empty-frame marker, and a second shift whose return value the function
    takes as a failure.  On the one remaining path it returns the byte the
    second shift captured, which may itself be 0xFF: a read that captured a
    genuine 0xFF and a read that failed return the same byte. *)
Theorem reg_read_failure_sentinel
  (tr : AVR.transport) (pdi : AVR.avr_pdi_t) (reg : Z) (h : AVR.jtag) :
  let jd := AVR.dp_jd_index pdi in
  let command := uint8 (Z.lor AVR.PDI_LDCS reg) in
  let first := tr h jd command in
  let second := tr (h ++ [AVR.ShiftDR jd command]) jd command in
  (16 <= reg -> fst (AVR.avr_pdi_reg_read tr pdi reg h) = 0xFF) /\
  (fst first = true -> fst (AVR.avr_pdi_reg_read tr pdi reg h) = 0xFF) /\
  (uint8 (snd first) <> AVR.PDI_EMPTY -> fst (AVR.avr_pdi_reg_read tr pdi reg h) = 0xFF) /\
  (fst second = false -> fst (AVR.avr_pdi_reg_read tr pdi reg h) = 0xFF) /\
  (reg < 16 -> fst first = false -> uint8 (snd first) = AVR.PDI_EMPTY ->
   fst second = true ->
   fst (AVR.avr_pdi_reg_read tr pdi reg h) = uint8 (snd second)) /\
  fst (AVR.avr_pdi_reg_read (AVR.scripted [(false, 0xEB); (true, 0xFF)]) pdi 0 []) = 0xFF /\
  fst (AVR.avr_pdi_reg_read (AVR.scripted [(false, 0x00)]) pdi 0 []) = 0xFF.
Proof.
  intros jd command first second.
  assert (Hout : 16 <= reg -> fst (AVR.avr_pdi_reg_read tr pdi reg h) = 0xFF).
  { intros Hreg. rewrite reg_read_out_of_range by assumption. reflexivity. }
  assert (Hin : reg < 16 ->
                fst (AVR.avr_pdi_reg_read tr pdi reg h) =
                if fst first then 0xFF
                else if negb (uint8 (snd first) =? AVR.PDI_EMPTY) then 0xFF
                else if negb (fst second) then 0xFF
                else uint8 (snd second)).
  { intros Hreg. rewrite reg_read_in_range by assumption.
    fold jd command first second.
    destruct (fst first); [reflexivity |].
    destruct (negb (uint8 (snd first) =? AVR.PDI_EMPTY)); [reflexivity |].
    destruct (negb (fst second)); reflexivity. }
  split; [| split; [| split; [| split; [| split; [| split]]]]];
    [| | | | | vm_compute; reflexivity | vm_compute; reflexivity].
  - exact Hout.
  - intros H1. destruct (Z.le_gt_cases 16 reg) as [Hreg | Hreg]; [auto |].
    rewrite Hin, H1 by lia. reflexivity.
  - intros Hb. destruct (Z.le_gt_cases 16 reg) as [Hreg | Hreg]; [auto |].
    rewrite Hin by lia. destruct (fst first); [reflexivity |].
    destruct (Z.eqb_spec (uint8 (snd first)) AVR.PDI_EMPTY); [contradiction | reflexivity].
  - intros H2. destruct (Z.le_gt_cases 16 reg) as [Hreg | Hreg]; [auto |].
    rewrite Hin, H2 by lia. destruct (fst first); [reflexivity |].
    destruct (negb (uint8 (snd first) =? AVR.PDI_EMPTY)); reflexivity.
  - intros Hreg H1 Hb H2. rewrite Hin, H1, Hb, H2 by lia. reflexivity.
Qed.

(** The shifts of a transport whose flag never changes are taken by
    [avr_pdi_reg_read] as one success and one failure, whatever the flag. *)
Lemma reg_read_uniform_flag
  (tr : AVR.transport) (flag : bool) (pdi : AVR.avr_pdi_t) (reg : Z) (h : AVR.jtag) :
  (forall h' jd dr_in, fst (tr h' jd dr_in) = flag) ->
  fst (AVR.avr_pdi_reg_read tr pdi reg h) = 0xFF.
Proof.
  intros Hflag. destruct (Z.le_gt_cases 16 reg) as [Hreg | Hreg].
  - rewrite reg_read_out_of_range by assumption. reflexivity.
  - rewrite reg_read_in_range by lia. rewrite !Hflag.
    destruct flag; cbn [negb]; [reflexivity |].
    destruct (negb _); reflexivity.
Qed.

(** A captured byte that is not the empty-frame marker fails a write in
    either phase, and a read in its first phase. *)
Lemma reg_access_non_marker
  (tr : AVR.transport) (pdi : AVR.avr_pdi_t) (reg value : Z) (h : AVR.jtag) :
  reg < 16 ->
  let jd := AVR.dp_jd_index pdi in
  let stcs := uint8 (Z.lor AVR.PDI_STCS reg) in
  let ldcs := uint8 (Z.lor AVR.PDI_LDCS reg) in
  (uint8 (snd (tr h jd stcs)) <> AVR.PDI_EMPTY ->
   fst (AVR.avr_pdi_reg_write tr pdi reg value h) = false) /\
  (uint8 (snd (tr (h ++ [AVR.ShiftDR jd stcs]) jd value)) <> AVR.PDI_EMPTY ->
   fst (AVR.avr_pdi_reg_write tr pdi reg value h) = false) /\
  (uint8 (snd (tr h jd ldcs)) <> AVR.PDI_EMPTY ->
   fst (AVR.avr_pdi_reg_read tr pdi reg h) = 0xFF).
Proof.
  intros Hreg jd stcs ldcs. split; [| split]; intros Hbyte.
  - rewrite reg_write_in_range by assumption. fold jd stcs.
    destruct (fst (tr h jd stcs)); [reflexivity |].
    destruct (Z.eqb_spec (uint8 (snd (tr h jd stcs))) AVR.PDI_EMPTY);
      [contradiction | reflexivity].
  - rewrite reg_write_in_range by assumption. fold jd stcs.
    destruct (fst (tr h jd stcs)); [reflexivity |].
    destruct (negb _); [reflexivity |].
    destruct (fst (tr (h ++ [AVR.ShiftDR jd stcs]) jd value)); [reflexivity |].
    cbn [fst].
    destruct (Z.eqb_spec (uint8 (snd (tr (h ++ [AVR.ShiftDR jd stcs]) jd value)))
                AVR.PDI_EMPTY); [contradiction | reflexivity].
  - rewrite reg_read_in_range by assumption. fold jd ldcs.
    destruct (fst (tr h jd ldcs)); [reflexivity |].
    destruct (Z.eqb_spec (uint8 (snd (tr h jd ldcs))) AVR.PDI_EMPTY);
      [contradiction | reflexivity].
Qed.

(** C2, as the code has it.  For a register in [0,16):
    [avr_pdi_reg_write] returns true exactly when both of its shifts return
    false and capture the empty-frame marker 0xEB, so that a byte other than
    0xEB in either phase makes it return false.  [avr_pdi_reg_read] returns
    the byte its second shift captures when its first shift returns false
    and captures 0xEB and its second shift returns true; it takes a failure
    path when its first shift returns true or captures a byte other than
    0xEB, or its second shift returns false.  The byte of the second phase
    of a read is the register value and is not compared with the marker. *)
Theorem reg_access_handshake
  (tr : AVR.transport) (pdi : AVR.avr_pdi_t) (reg value : Z) (h : AVR.jtag) :
  0 <= reg < 16 ->
  let jd := AVR.dp_jd_index pdi in
  let stcs := uint8 (Z.lor AVR.PDI_STCS reg) in
  let ldcs := uint8 (Z.lor AVR.PDI_LDCS reg) in
  let w1 := tr h jd stcs in
  let w2 := tr (h ++ [AVR.ShiftDR jd stcs]) jd value in
  let r1 := tr h jd ldcs in
  let r2 := tr (h ++ [AVR.ShiftDR jd ldcs]) jd ldcs in
  (fst (AVR.avr_pdi_reg_write tr pdi reg value h) = true <->
   fst w1 = false /\ uint8 (snd w1) = AVR.PDI_EMPTY /\
   fst w2 = false /\ uint8 (snd w2) = AVR.PDI_EMPTY) /\
  (fst r1 = false -> uint8 (snd r1) = AVR.PDI_EMPTY -> fst r2 = true ->
   AVR.avr_pdi_reg_read tr pdi reg h =
     (uint8 (snd r2), h ++ [AVR.ShiftDR jd ldcs; AVR.ShiftDR jd ldcs])) /\
  (fst r1 = true \/ uint8 (snd r1) <> AVR.PDI_EMPTY \/ fst r2 = false ->
   fst (AVR.avr_pdi_reg_read tr pdi reg h) = 0xFF).
Proof.
  intros Hreg jd stcs ldcs w1 w2 r1 r2. split; [| split].
  - rewrite reg_write_in_range by lia. fold jd stcs w1 w2.
    destruct (fst w1); [cbn [fst]; split; [discriminate | intros [H _]; discriminate H] |].
    destruct (Z.eqb_spec (uint8 (snd w1)) AVR.PDI_EMPTY) as [E1 | E1]; cbn [negb].
    2: { cbn [fst]. split; [discriminate | intros (_ & H & _); contradiction]. }
    destruct (fst w2); [cbn [fst]; split; [discriminate | intros (_ & _ & H & _); discriminate H] |].
    cbn [fst].
    destruct (Z.eqb_spec (uint8 (snd w2)) AVR.PDI_EMPTY) as [E2 | E2].
    + split; [intros _; repeat split; assumption | reflexivity].
    + split; [discriminate | intros (_ & _ & _ & H); contradiction].
  - intros H1 Hb H2. rewrite reg_read_in_range by lia. fold jd ldcs r1 r2.
    rewrite H1, Hb, H2. cbn [negb]. rewrite <- app_assoc. reflexivity.
  - intros Hfail. rewrite reg_read_in_range by lia. fold jd ldcs r1 r2.
    destruct (fst r1); [reflexivity |].
    destruct (Z.eqb_spec (uint8 (snd r1)) AVR.PDI_EMPTY) as [E1 | E1]; [| reflexivity].
    cbn [negb]. destruct (fst r2); [| reflexivity].
    destruct Hfail as [H | [H | H]]; [discriminate H | contradiction | discriminate H].
Qed.

Lemma reg_access_handshake_witness :
  0 <= 3 < 16 /\
  AVR.avr_pdi_reg_read (AVR.scripted [(false, 0xEB); (true, 0x12)]) pdi0 3 [] =
    (0x12, [AVR.ShiftDR 0 0x83; AVR.ShiftDR 0 0x83]).
Proof.
  split; [lia |].
  exact (proj1 (proj2
    (reg_access_handshake (AVR.scripted [(false, 0xEB); (true, 0x12)]) pdi0 3 0 []
       ltac:(lia))) eq_refl eq_refl eq_refl).
Defined.

(** C2 as it is stated does not hold.  Against the transport that answers
    every shift with 0xEB and the same flag, a read takes a failure path,
    whichever flag it is, and does not return the 0xEB that was shifted out;
    and a byte other than 0xEB in the second phase of a read, here 0x12, is
    returned as the value of the register. *)
Lemma reg_access_marker_claim_fails :
  AVR.avr_pdi_reg_read (AVR.constant false 0xEB) pdi0 3 [] =
    (0xFF, [AVR.ShiftDR 0 0x83; AVR.ShiftDR 0 0x83]) /\
  AVR.avr_pdi_reg_read (AVR.constant true 0xEB) pdi0 3 [] =
    (0xFF, [AVR.ShiftDR 0 0x83]) /\
  fst (AVR.avr_pdi_reg_read (AVR.constant false 0xEB) pdi0 3 []) <> AVR.PDI_EMPTY /\
  fst (AVR.avr_pdi_reg_read (AVR.constant true 0xEB) pdi0 3 []) <> AVR.PDI_EMPTY /\
  AVR.avr_pdi_reg_read (AVR.scripted [(false, 0xEB); (true, 0x12)]) pdi0 3 [] =
    (0x12, [AVR.ShiftDR 0 0x83; AVR.ShiftDR 0 0x83]).
Proof. vm_compute. repeat split; discriminate. Qed.

(** ** avr_pdi.c: the halt handshake *)

Section HaltRequest.

Variable tr : AVR.transport.
Variable pdi : AVR.avr_pdi_t.

(** When the handshake goes through, the condition of the [if] is false. *)
Lemma handshake_ok_not_failed (h h' : AVR.jtag) :
  handshake_ok tr pdi h h' -> AVR.halt_handshake_failed tr pdi h = (false, h').
Proof.
  intros (h1 & h2 & h3 & h4 & E1 & E2 & E3 & E4 & E5).
  unfold AVR.halt_handshake_failed.
  rewrite (orelse_false _ _ h h1) by (rewrite (fmap_run _ _ _ _ _ E1); reflexivity).
  rewrite (orelse_false _ _ h1 h2) by (rewrite (fmap_run _ _ _ _ _ E2); reflexivity).
  rewrite (orelse_false _ _ h2 h3) by (rewrite (fmap_run _ _ _ _ _ E3); reflexivity).
  rewrite (orelse_false _ _ h3 h4) by (rewrite (fmap_run _ _ _ _ _ E4); reflexivity).
  rewrite (fmap_run _ _ _ _ _ E5). reflexivity.
Qed.

(** And the other way round: a false condition means that each of the five
    steps gave its required answer. *)
Lemma not_failed_handshake_ok (h h' : AVR.jtag) :
  AVR.halt_handshake_failed tr pdi h = (false, h') -> handshake_ok tr pdi h h'.
Proof.
  unfold AVR.halt_handshake_failed, handshake_ok, orelse, fmap, bind, ret.
  destruct (AVR.avr_pdi_reg_write tr pdi AVR.PDI_REG_R4 1 h) as [w1 h1] eqn:E1.
  destruct w1; cbn [negb]; [| discriminate].
  destruct (AVR.avr_pdi_reg_read tr pdi AVR.PDI_REG_R3 h1) as [v2 h2] eqn:E2.
  destruct (Z.eqb_spec v2 0x10) as [-> |]; cbn [negb]; [| discriminate].
  destruct (AVR.avr_pdi_reg_write tr pdi AVR.PDI_REG_RESET 0 h2) as [w3 h3] eqn:E3.
  destruct w3; cbn [negb]; [| discriminate].
  destruct (AVR.avr_pdi_reg_read tr pdi AVR.PDI_REG_R3 h3) as [v4 h4] eqn:E4.
  destruct (Z.eqb_spec v4 0x14) as [-> |]; cbn [negb]; [| discriminate].
  destruct (AVR.avr_pdi_reg_read tr pdi AVR.PDI_REG_R3 h4) as [v5 h5] eqn:E5.
  destruct (Z.eqb_spec v5 0x04) as [-> |]; cbn [negb]; [| discriminate].
  intros [= <-]. exists h1, h2, h3, h4. repeat split; assumption.
Qed.

End HaltRequest.

(** C1. [avr_halt_request] is all-or-nothing.  Either the five steps (write
    R4 = 1 succeeds, R3 reads 0x10, write RESET = 0 succeeds, R3 reads 0x14,
    R3 reads 0x04) all answer as required, and then the function returns
    with [halt_reason] set to halted-by-request; or some step deviates, and
    then it raises the error exception and the context, [halt_reason]
    included, is what it was before. *)
Theorem halt_request_all_or_nothing
  (tr : AVR.transport) (pdi : AVR.avr_pdi_t) (h : AVR.jtag) :
  (exists h',
      handshake_ok tr pdi h h' /\
      AVR.avr_halt_request tr pdi h =
        (AVR.Returned tt, AVR.set_halt_reason pdi AVR.TARGET_HALT_REQUEST, h') /\
      AVR.avr_halt_poll (snd (fst (AVR.avr_halt_request tr pdi h))) =
        AVR.TARGET_HALT_REQUEST)
  \/
  ((forall h', ~ handshake_ok tr pdi h h') /\
   exists msg h',
      AVR.avr_halt_request tr pdi h = (AVR.Raised AVR.EXCEPTION_ERROR msg, pdi, h') /\
      AVR.avr_halt_poll (snd (fst (AVR.avr_halt_request tr pdi h))) =
        AVR.halt_reason pdi).
Proof.
  unfold AVR.avr_halt_request.
  destruct (AVR.halt_handshake_failed tr pdi h) as [failed h'] eqn:E.
  destruct failed.
  - right. split.
    + intros h'' Hok. apply handshake_ok_not_failed in Hok. congruence.
    + eexists; exists h'. split; reflexivity.
  - left. exists h'. split; [apply not_failed_handshake_ok; exact E |].
    split; reflexivity.
Qed.

(** The handshake can go through: on [halting_script] it does, and the
    context that was running is then halted by request. *)
Example halt_request_on_halting_script :
  AVR.avr_halt_request (AVR.scripted halting_script) pdi0 [] =
    (AVR.Returned tt,
     AVR.set_halt_reason pdi0 AVR.TARGET_HALT_REQUEST,
     [ AVR.ShiftDR 0 0xC4; AVR.ShiftDR 0 1;
       AVR.ShiftDR 0 0x83; AVR.ShiftDR 0 0x83;
       AVR.ShiftDR 0 0xC1; AVR.ShiftDR 0 0;
       AVR.ShiftDR 0 0x83; AVR.ShiftDR 0 0x83;
       AVR.ShiftDR 0 0x83; AVR.ShiftDR 0 0x83 ]).
Proof. vm_compute. reflexivity. Qed.

(** One substituted value, 0x15 for the 0x14 of the fourth step: the
    exception is raised after eight shifts and [halt_reason] is still
    running. *)
Example halt_request_on_substituted_value :
  let script :=
    [ (false, 0xEB); (false, 0xEB); (false, 0xEB); (true, 0x10);
      (false, 0xEB); (false, 0xEB); (false, 0xEB); (true, 0x15);
      (false, 0xEB); (true, 0x04) ] in
  let r := AVR.avr_halt_request (AVR.scripted script) pdi0 [] in
  fst (fst r) =
    AVR.Raised AVR.EXCEPTION_ERROR "Error halting device, device in incorrect state" /\
  snd (fst r) = pdi0 /\
  AVR.shift_count (snd r) = 8%nat.
Proof. vm_compute. repeat split. Qed.

(** ** avr_pdi.c: binding a context *)

(** The target object as [avr_pdi_init] has filled it in when it calls the
    chip-family prober. *)
Lemma avr_pdi_init_valid_idcode
  (target_new : option AVR.target)
  (atxmega_probe : AVR.target -> AVR.avr_pdi_t -> ST AVR.jtag (bool * AVR.target * AVR.avr_pdi_t))
  (pdi : AVR.avr_pdi_t) (h : AVR.jtag) (t0 : AVR.target) :
  Z.land (AVR.idcode pdi) 0x0FFFF000 <> 0 ->
  target_new = Some t0 ->
  let t := AVR.mk_target (AVR.idcode pdi)
             (Z.land (Z.shiftr (AVR.idcode pdi) 12) 0xFFFF)
             "Atmel AVR" "AVR" true true
             (Some AVR.avr_attach_cb) (Some AVR.avr_detach_cb) (Some AVR.avr_reset_cb)
             (Some AVR.avr_halt_request_cb) (Some AVR.avr_halt_poll_cb) in
  let probed := atxmega_probe t pdi (h ++ [AVR.WriteIR (AVR.dp_jd_index pdi) AVR.IR_BYPASS]) in
  let t' := snd (fst (fst probed)) in
  let pdi' := snd (fst probed) in
  AVR.avr_pdi_init target_new atxmega_probe pdi h =
    if fst (fst (fst probed))
    then (true, AVR.mk_binding (Some pdi') (Some t'), snd probed)
    else (true,
          AVR.mk_binding (Some (AVR.set_halt_reason pdi' AVR.TARGET_HALT_RUNNING)) (Some t'),
          snd probed).
Proof.
  intros Hid -> t probed t' pdi'. unfold AVR.avr_pdi_init.
  destruct (Z.eqb_spec (Z.land (AVR.idcode pdi) 0x0FFFF000) 0); [contradiction |].
  unfold bind, ret, AVR.jtag_dev_write_ir. fold t. fold probed.
  subst t' pdi'. destruct probed as [[[recognised t1] pdi1] h1]; cbn [fst snd].
  destruct recognised; reflexivity.
Qed.

(** C6. [avr_pdi_init] returns false in exactly two cases: the part-number
    field [idcode & 0x0FFFF000] is zero, and then the context has been freed
    and nothing was sent to the scan chain; or [target_new] fails.  In every
    other case it returns true, and when [atxmega_probe] does not recognise
    the device the context's [halt_reason] is left at running. *)
Theorem avr_pdi_init_result
  (target_new : option AVR.target)
  (atxmega_probe : AVR.target -> AVR.avr_pdi_t -> ST AVR.jtag (bool * AVR.target * AVR.avr_pdi_t))
  (pdi : AVR.avr_pdi_t) (h : AVR.jtag) :
  let r := AVR.avr_pdi_init target_new atxmega_probe pdi h in
  let t := AVR.mk_target (AVR.idcode pdi)
             (Z.land (Z.shiftr (AVR.idcode pdi) 12) 0xFFFF)
             "Atmel AVR" "AVR" true true
             (Some AVR.avr_attach_cb) (Some AVR.avr_detach_cb) (Some AVR.avr_reset_cb)
             (Some AVR.avr_halt_request_cb) (Some AVR.avr_halt_poll_cb) in
  let probed := atxmega_probe t pdi (h ++ [AVR.WriteIR (AVR.dp_jd_index pdi) AVR.IR_BYPASS]) in
  (fst (fst r) = false <->
   Z.land (AVR.idcode pdi) 0x0FFFF000 = 0 \/ target_new = None) /\
  (Z.land (AVR.idcode pdi) 0x0FFFF000 = 0 ->
   r = (false, AVR.mk_binding None None, h)) /\
  (Z.land (AVR.idcode pdi) 0x0FFFF000 <> 0 -> target_new = None ->
   r = (false, AVR.mk_binding (Some pdi) None,
        h ++ [AVR.WriteIR (AVR.dp_jd_index pdi) AVR.IR_BYPASS])) /\
  (Z.land (AVR.idcode pdi) 0x0FFFF000 <> 0 -> target_new <> None ->
   fst (fst (fst probed)) = false ->
   fst (fst r) = true /\
   option_map AVR.halt_reason (AVR.context (snd (fst r))) = Some AVR.TARGET_HALT_RUNNING).
Proof.
  intros r t probed.
  assert (Hzero : Z.land (AVR.idcode pdi) 0x0FFFF000 = 0 ->
                  r = (false, AVR.mk_binding None None, h)).
  { intros Hid. subst r. unfold AVR.avr_pdi_init. rewrite Hid. reflexivity. }
  assert (Hnone : Z.land (AVR.idcode pdi) 0x0FFFF000 <> 0 -> target_new = None ->
                  r = (false, AVR.mk_binding (Some pdi) None,
                       h ++ [AVR.WriteIR (AVR.dp_jd_index pdi) AVR.IR_BYPASS])).
  { intros Hid Hnew. subst r. unfold AVR.avr_pdi_init.
    destruct (Z.eqb_spec (Z.land (AVR.idcode pdi) 0x0FFFF000) 0); [contradiction |].
    rewrite Hnew. reflexivity. }
  assert (Hsome : Z.land (AVR.idcode pdi) 0x0FFFF000 <> 0 -> target_new <> None ->
                  r = if fst (fst (fst probed))
                      then (true, AVR.mk_binding (Some (snd (fst probed)))
                                    (Some (snd (fst (fst probed)))), snd probed)
                      else (true,
                            AVR.mk_binding
                              (Some (AVR.set_halt_reason (snd (fst probed))
                                       AVR.TARGET_HALT_RUNNING))
                              (Some (snd (fst (fst probed)))), snd probed)).
  { intros Hid Hnew. destruct target_new as [t0 |] eqn:E; [| contradiction].
    subst r. apply (avr_pdi_init_valid_idcode _ _ _ _ t0); [assumption | reflexivity]. }
  split; [split |]; [| | split; [exact Hzero | split; [exact Hnone |]]].
  - intros Hfalse.
    destruct (Z.eq_dec (Z.land (AVR.idcode pdi) 0x0FFFF000) 0) as [Hid | Hid]; [left; exact Hid |].
    destruct target_new as [t0 |] eqn:E; [| right; reflexivity].
    rewrite Hsome in Hfalse by (assumption || discriminate).
    destruct (fst (fst (fst probed))); discriminate.
  - intros [Hid | Hnew].
    + rewrite Hzero by assumption. reflexivity.
    + destruct (Z.eq_dec (Z.land (AVR.idcode pdi) 0x0FFFF000) 0) as [Hid | Hid].
      * rewrite Hzero by assumption. reflexivity.
      * rewrite Hnone by assumption. reflexivity.
  - intros Hid Hnew Hprobe. rewrite Hsome, Hprobe by assumption.
    split; reflexivity.
Qed.

(** A context with the ID code of an ATxmega256A3U, a target allocation that
    succeeds and a prober that recognises nothing: the binding succeeds and
    the context is running. *)
Example avr_pdi_init_unrecognised :
  AVR.avr_pdi_init (Some AVR.target_zero)
    (fun t pdi => ret (false, t, pdi))
    (AVR.mk_avr_pdi 0x0984203F 1 AVR.TARGET_HALT_OTHER) [] =
  (true,
   AVR.mk_binding
     (Some (AVR.mk_avr_pdi 0x0984203F 1 AVR.TARGET_HALT_RUNNING))
     (Some (AVR.mk_target 0x0984203F 0x9842 "Atmel AVR" "AVR" true true
              (Some AVR.avr_attach_cb) (Some AVR.avr_detach_cb) (Some AVR.avr_reset_cb)
              (Some AVR.avr_halt_request_cb) (Some AVR.avr_halt_poll_cb))),
   [AVR.WriteIR 1 AVR.IR_BYPASS]).
Proof. vm_compute. reflexivity. Qed.

(** ** lpc43xx.c: flash initialisation and the watchdog *)

Section FlashInit.

Variable rd : LPC43xx.trace -> Z -> Z.
Variable iap : LPC43xx.trace -> LPC43xx.iap_cmd -> list Z -> Z.
Variable SUCCESS : Z.

(** [lpc43xx_flash_init] as the transactions it appends and the comparison
    it returns. *)
Lemma flash_init_run (h : LPC43xx.trace) :
  LPC43xx.lpc43xx_flash_init rd iap SUCCESS h =
    (init_status rd iap h =? SUCCESS,
     h ++ flash_init_before_call (uint32 (rd h LPC43xx.LPC43xx_WDT_MODE)) ++
       [LPC43xx.IapCall LPC43xx.IAP_CMD_INIT []]).
Proof.
  unfold LPC43xx.lpc43xx_flash_init, LPC43xx.lpc43xx_wdt_set_period, init_status,
    flash_init_before_call, wdt_enabled, wdt_locked, bind, ret,
    LPC43xx.target_mem_read32, LPC43xx.target_mem_write32, LPC43xx.lpc_iap_call.
  rewrite negb_involutive.
  destruct (negb (uint32 (rd h LPC43xx.LPC43xx_WDT_MODE) =? 0) &&
            (Z.land (uint32 (rd h LPC43xx.LPC43xx_WDT_MODE)) LPC43xx.LPC43xx_WDT_PROTECT =? 0));
    cbn [app]; rewrite <- ?app_assoc; reflexivity.
Qed.

End FlashInit.

(** C9. [lpc43xx_flash_init] reads the watchdog mode, writes the watchdog
    count only if the mode reads as enabled and not hardware-locked, then
    selects the internal clock and calls the ROM's initialize, and returns
    whether the status equals the success code.  Enabled and not locked:
    exactly one write to the count register, of the longest period 0xffffff.
    Enabled and locked, or disabled: no write to the count register. *)
Theorem flash_init_watchdog
  (rd : LPC43xx.trace -> Z -> Z)
  (iap : LPC43xx.trace -> LPC43xx.iap_cmd -> list Z -> Z)
  (SUCCESS : Z) (h : LPC43xx.trace) :
  let wdt_mode := uint32 (rd h LPC43xx.LPC43xx_WDT_MODE) in
  let issued := flash_init_before_call wdt_mode ++ [LPC43xx.IapCall LPC43xx.IAP_CMD_INIT []] in
  LPC43xx.lpc43xx_flash_init rd iap SUCCESS h =
    (iap (h ++ flash_init_before_call wdt_mode) LPC43xx.IAP_CMD_INIT [] =? SUCCESS,
     h ++ issued) /\
  (wdt_enabled wdt_mode = true -> wdt_locked wdt_mode = false ->
   writes_to LPC43xx.LPC43xx_WDT_CNT issued =
     [LPC43xx.MemWrite32 LPC43xx.LPC43xx_WDT_CNT LPC43xx.LPC43xx_WDT_PERIOD_MAX] /\
   issued =
     [ LPC43xx.MemRead32 LPC43xx.LPC43xx_WDT_MODE;
       LPC43xx.MemWrite32 LPC43xx.LPC43xx_WDT_CNT LPC43xx.LPC43xx_WDT_PERIOD_MAX;
       LPC43xx.MemWrite32 LPC43xx.LPC43xx_CGU_CPU_CLK
         (Z.lor LPC43xx.LPC43xx_CGU_BASE_CLK_AUTOBLOCK LPC43xx.LPC43xx_CGU_BASE_CLK_SEL_IRC);
       LPC43xx.IapCall LPC43xx.IAP_CMD_INIT [] ]) /\
  (wdt_enabled wdt_mode = true -> wdt_locked wdt_mode = true ->
   writes_to LPC43xx.LPC43xx_WDT_CNT issued = []) /\
  (wdt_enabled wdt_mode = false ->
   writes_to LPC43xx.LPC43xx_WDT_CNT issued = []).
Proof.
  intros wdt_mode issued. split; [apply flash_init_run |].
  subst issued. unfold flash_init_before_call.
  split; [| split].
  - intros -> ->. split; reflexivity.
  - intros -> ->. reflexivity.
  - intros ->. reflexivity.
Qed.

(** A watchdog mode of 0x01 (enabled, not protected) and one of 0x11
    (enabled, protected), with a ROM that reports success. *)
Example flash_init_watchdog_unlocked :
  LPC43xx.lpc43xx_flash_init (fun _ _ => 0x01) (fun _ _ _ => 0) 0 [] =
    (true,
     [ LPC43xx.MemRead32 0x40080000;
       LPC43xx.MemWrite32 0x40080004 0xffffff;
       LPC43xx.MemWrite32 0x4005006C 0x01000800;
       LPC43xx.IapCall LPC43xx.IAP_CMD_INIT [] ]).
Proof. vm_compute. reflexivity. Qed.

Example flash_init_watchdog_locked :
  LPC43xx.lpc43xx_flash_init (fun _ _ => 0x11) (fun _ _ _ => 0) 0 [] =
    (true,
     [ LPC43xx.MemRead32 0x40080000;
       LPC43xx.MemWrite32 0x4005006C 0x01000800;
       LPC43xx.IapCall LPC43xx.IAP_CMD_INIT [] ]).
Proof. vm_compute. reflexivity. Qed.

(** ** lpc43xx.c: mass erase *)

Section MassErase.

Variable rd : LPC43xx.trace -> Z -> Z.
Variable iap : LPC43xx.trace -> LPC43xx.iap_cmd -> list Z -> Z.
Variable SUCCESS : Z.
Variable clk : Z.

(** One turn of the loop: the PREPARE call, and the ERASE call only if the
    PREPARE call returned zero. *)
Lemma mass_erase_bank_run (bank : Z) (h : LPC43xx.trace) :
  LPC43xx.mass_erase_bank iap clk bank h =
    if negb (iap h LPC43xx.IAP_CMD_PREPARE [0; 14; bank] =? 0)
    then (true, h ++ [PREPARE bank])
    else (negb (iap (h ++ [PREPARE bank]) LPC43xx.IAP_CMD_ERASE [0; 14; clk; bank] =? 0),
          (h ++ [PREPARE bank]) ++ [ERASE clk bank]).
Proof.
  unfold LPC43xx.mass_erase_bank, orelse, fmap, bind, ret, LPC43xx.lpc_iap_call,
    PREPARE, ERASE.
  change (LPC43xx.FLASH_NUM_SECTOR - 1) with 14.
  destruct (negb (iap h LPC43xx.IAP_CMD_PREPARE [0; 14; bank] =? 0)); reflexivity.
Qed.

(** The whole of [lpc43xx_mass_erase], from the four statuses. *)
Lemma mass_erase_run (h : LPC43xx.trace) :
  let h0 := snd (LPC43xx.lpc43xx_flash_init rd iap SUCCESS (h ++ [LPC43xx.TimeoutSet 500])) in
  let p0 := iap h0 LPC43xx.IAP_CMD_PREPARE [0; 14; 0] in
  let e0 := iap (h0 ++ [PREPARE 0]) LPC43xx.IAP_CMD_ERASE [0; 14; clk; 0] in
  let h1 := h0 ++ [PREPARE 0; ERASE clk 0; LPC43xx.PrintProgress] in
  let p1 := iap h1 LPC43xx.IAP_CMD_PREPARE [0; 14; 1] in
  let e1 := iap (h1 ++ [PREPARE 1]) LPC43xx.IAP_CMD_ERASE [0; 14; clk; 1] in
  LPC43xx.lpc43xx_mass_erase rd iap SUCCESS clk h =
    if negb (p0 =? 0) then (false, h0 ++ [PREPARE 0])
    else if negb (e0 =? 0) then (false, h0 ++ [PREPARE 0; ERASE clk 0])
    else if negb (p1 =? 0) then (false, h1 ++ [PREPARE 1])
    else if negb (e1 =? 0) then (false, h1 ++ [PREPARE 1; ERASE clk 1])
    else (true, h1 ++ [PREPARE 1; ERASE clk 1; LPC43xx.PrintProgress]).
Proof.
  intros h0 p0 e0 h1 p1 e1.
  unfold LPC43xx.lpc43xx_mass_erase, LPC43xx.platform_timeout_set.
  unfold bind at 1 2.
  set (fi := LPC43xx.lpc43xx_flash_init rd iap SUCCESS _) in *.
  clearbody fi. destruct fi as [ok h0']. cbn [snd] in h0.
  change h0' with h0. clearbody h0. clear h0'.
  change (Z.to_nat LPC43xx.FLASH_NUM_BANK) with 2%nat.
  cbn [LPC43xx.mass_erase_loop]. unfold bind at 1.
  rewrite mass_erase_bank_run. fold p0.
  destruct (negb (p0 =? 0)); [reflexivity |].
  fold e0. destruct (negb (e0 =? 0)).
  { rewrite <- app_assoc. reflexivity. }
  unfold bind at 1, LPC43xx.target_print_progress at 1.
  replace (((h0 ++ [PREPARE 0]) ++ [ERASE clk 0]) ++ [LPC43xx.PrintProgress]) with h1
    by (subst h1; rewrite <- !app_assoc; reflexivity).
  unfold bind at 1. change (0 + 1) with 1.
  rewrite mass_erase_bank_run. fold p1.
  destruct (negb (p1 =? 0)); [reflexivity |].
  fold e1. destruct (negb (e1 =? 0)).
  { rewrite <- app_assoc. reflexivity. }
  unfold bind, ret, LPC43xx.target_print_progress.
  rewrite <- !app_assoc. reflexivity.
Qed.

End MassErase.

(** C3. After the flash initialisation, [lpc43xx_mass_erase] takes bank 0
    and then bank 1, and for each bank calls PREPARE over sectors 0 to 14 and
    then ERASE over the same sectors; the first of the four calls that
    returns a non-zero status ends it with false and nothing more is issued.
    When bank 0's PREPARE and ERASE return zero and bank 1's PREPARE does
    not, the result is false, the ERASE of bank 0 has been issued and no
    ERASE of bank 1 is. *)
Theorem mass_erase_banks_in_turn
  (rd : LPC43xx.trace -> Z -> Z)
  (iap : LPC43xx.trace -> LPC43xx.iap_cmd -> list Z -> Z)
  (SUCCESS clk : Z) (h : LPC43xx.trace) :
  let r := LPC43xx.lpc43xx_mass_erase rd iap SUCCESS clk h in
  let h0 := snd (LPC43xx.lpc43xx_flash_init rd iap SUCCESS (h ++ [LPC43xx.TimeoutSet 500])) in
  let p0 := iap h0 LPC43xx.IAP_CMD_PREPARE [0; 14; 0] in
  let e0 := iap (h0 ++ [PREPARE 0]) LPC43xx.IAP_CMD_ERASE [0; 14; clk; 0] in
  let h1 := h0 ++ [PREPARE 0; ERASE clk 0; LPC43xx.PrintProgress] in
  let p1 := iap h1 LPC43xx.IAP_CMD_PREPARE [0; 14; 1] in
  let e1 := iap (h1 ++ [PREPARE 1]) LPC43xx.IAP_CMD_ERASE [0; 14; clk; 1] in
  r = (if negb (p0 =? 0) then (false, h0 ++ [PREPARE 0])
       else if negb (e0 =? 0) then (false, h0 ++ [PREPARE 0; ERASE clk 0])
       else if negb (p1 =? 0) then (false, h1 ++ [PREPARE 1])
       else if negb (e1 =? 0) then (false, h1 ++ [PREPARE 1; ERASE clk 1])
       else (true, h1 ++ [PREPARE 1; ERASE clk 1; LPC43xx.PrintProgress])) /\
  (p0 = 0 -> e0 = 0 -> p1 <> 0 ->
   exists issued,
     r = (false, h0 ++ issued) /\
     issued = [PREPARE 0; ERASE clk 0; LPC43xx.PrintProgress; PREPARE 1] /\
     In (ERASE clk 0) issued /\
     ~ In (ERASE clk 1) issued).
Proof.
  intros r h0 p0 e0 h1 p1 e1.
  assert (Hrun := mass_erase_run rd iap SUCCESS clk h).
  cbv zeta in Hrun. fold r h0 in Hrun. fold p0 e0 h1 in Hrun. fold p1 e1 in Hrun.
  split; [exact Hrun |].
  intros Hp0 He0 Hp1.
  exists [PREPARE 0; ERASE clk 0; LPC43xx.PrintProgress; PREPARE 1].
  split; [| split; [reflexivity | split]].
  - rewrite Hrun, Hp0, He0. cbn [Z.eqb negb].
    destruct (Z.eqb_spec p1 0); [contradiction |]. cbn [negb].
    subst h1. rewrite <- app_assoc. reflexivity.
  - right; left; reflexivity.
  - unfold ERASE, PREPARE. intros [H | [H | [H | [H | []]]]]; discriminate H.
Qed.

(** A ROM that fails the PREPARE call of bank 1 only. *)
Example mass_erase_second_prepare_fails :
  let iap := fun (_ : LPC43xx.trace) (c : LPC43xx.iap_cmd) (args : list Z) =>
               match c, args with
               | LPC43xx.IAP_CMD_PREPARE, [_; _; 1] => 9
               | _, _ => 0
               end in
  LPC43xx.lpc43xx_mass_erase (fun _ _ => 0) iap 0 12000 [] =
    (false,
     [ LPC43xx.TimeoutSet 500;
       LPC43xx.MemRead32 0x40080000;
       LPC43xx.MemWrite32 0x4005006C 0x01000800;
       LPC43xx.IapCall LPC43xx.IAP_CMD_INIT [];
       LPC43xx.IapCall LPC43xx.IAP_CMD_PREPARE [0; 14; 0];
       LPC43xx.IapCall LPC43xx.IAP_CMD_ERASE [0; 14; 12000; 0];
       LPC43xx.PrintProgress;
       LPC43xx.IapCall LPC43xx.IAP_CMD_PREPARE [0; 14; 1] ]).
Proof. vm_compute. reflexivity. Qed.

(** ** lpc43xx.c: the mkboot command *)


Section MakeBootable.

Variable rd : LPC43xx.trace -> Z -> Z.
Variable iap : LPC43xx.trace -> LPC43xx.iap_cmd -> list Z -> Z.
Variable SUCCESS : Z.
Variable clk : Z.
Variable ULONG_MAX : Z.

Lemma mkboot_wrong_argc (argc : Z) (argv : list string) (h : LPC43xx.trace) :
  argc <> 2 ->
  LPC43xx.lpc43xx_cmd_mkboot rd iap SUCCESS clk ULONG_MAX argc argv h =
    (false, h ++ [LPC43xx.Printf "Expected bank argument 0 or 1."]).
Proof.
  intros Hargc. unfold LPC43xx.lpc43xx_cmd_mkboot.
  destruct (Z.eqb_spec argc 2); [contradiction | reflexivity].
Qed.

Lemma mkboot_wrong_bank (argv : list string) (h : LPC43xx.trace) :
  1 < uint32 (Libc.strtoul ULONG_MAX (nth 1 argv ""%string)) ->
  LPC43xx.lpc43xx_cmd_mkboot rd iap SUCCESS clk ULONG_MAX 2 argv h =
    (false, h ++ [LPC43xx.Printf "Unexpected bank number, should be 0 or 1."]).
Proof.
  intros Hbank. unfold LPC43xx.lpc43xx_cmd_mkboot. cbn [Z.eqb Pos.eqb negb].
  destruct (Z.ltb_spec 1 (uint32 (Libc.strtoul ULONG_MAX (nth 1 argv ""%string))));
    [reflexivity | lia].
Qed.

(** With a bank of 0 or 1 the command initialises the flash, whatever that
    returns, and calls SET_ACTIVE_BANK. *)
Lemma mkboot_good_bank (argv : list string) (h : LPC43xx.trace) :
  let bank := uint32 (Libc.strtoul ULONG_MAX (nth 1 argv ""%string)) in
  let h0 := snd (LPC43xx.lpc43xx_flash_init rd iap SUCCESS h) in
  let call := LPC43xx.IapCall LPC43xx.IAP_CMD_SET_ACTIVE_BANK [bank; clk] in
  bank <= 1 ->
  LPC43xx.lpc43xx_cmd_mkboot rd iap SUCCESS clk ULONG_MAX 2 argv h =
    if negb (iap h0 LPC43xx.IAP_CMD_SET_ACTIVE_BANK [bank; clk] =? 0)
    then (false, h0 ++ [call; LPC43xx.Printf "Set bootable failed."])
    else (true, h0 ++ [call; LPC43xx.Printf "Set bootable OK."]).
Proof.
  intros bank h0 call Hbank. unfold LPC43xx.lpc43xx_cmd_mkboot.
  cbn [Z.eqb Pos.eqb negb]. fold bank.
  destruct (Z.ltb_spec 1 bank); [lia |].
  unfold bind at 1.
  set (fi := LPC43xx.lpc43xx_flash_init rd iap SUCCESS h) in *.
  clearbody fi. destruct fi as [ok h0']. cbn [snd] in h0.
  change h0' with h0. clearbody h0. clear h0'.
  unfold bind at 1, LPC43xx.lpc_iap_call at 1.
  destruct (negb (iap h0 LPC43xx.IAP_CMD_SET_ACTIVE_BANK [bank; clk] =? 0));
    unfold bind, ret, LPC43xx.tc_printf; rewrite <- app_assoc; reflexivity.
Qed.

End MakeBootable.

(** A bank argument that does not start with a number has the value 0. *)
Lemma strtoul_no_number (ULONG_MAX : Z) (s : string) :
  0 <= ULONG_MAX -> starts_no_number s = true -> Libc.strtoul ULONG_MAX s = 0.
Proof.
  intros Hmax Hs.
  destruct ULONG_MAX as [| p | p]; [| | lia].
  - destruct s as [| c rest]; [reflexivity |].
    destruct c as [b0 b1 b2 b3 b4 b5 b6 b7].
    destruct b0, b1, b2, b3, b4, b5, b6, b7;
      first [ vm_compute in Hs; discriminate Hs | vm_compute; reflexivity ].
  - destruct s as [| c rest]; [reflexivity |].
    destruct c as [b0 b1 b2 b3 b4 b5 b6 b7].
    destruct b0, b1, b2, b3, b4, b5, b6, b7;
      first [ vm_compute in Hs; discriminate Hs | vm_compute; reflexivity ].
Qed.





(** What counts is the 32-bit value of the longest numeric prefix: "2x" is
    turned down like "2", "1x" is bank 1, and where [unsigned long] has 64
    bits "4294967296" is bank 0. *)
Example mkboot_numeric_prefixes :
  let mkboot := fun max arg =>
    LPC43xx.lpc43xx_cmd_mkboot (fun _ _ => 0) (fun _ _ _ => 0) 0 12000 max
      2 ["mkboot"%string; arg] [] in
  rejected_without_rom_call [] (mkboot (2 ^ 32 - 1) "2x"%string) /\
  iap_calls (snd (mkboot (2 ^ 32 - 1) "1x"%string)) =
    [ LPC43xx.IapCall LPC43xx.IAP_CMD_INIT [];
      LPC43xx.IapCall LPC43xx.IAP_CMD_SET_ACTIVE_BANK [1; 12000] ] /\
  iap_calls (snd (mkboot (2 ^ 64 - 1) "4294967296"%string)) =
    [ LPC43xx.IapCall LPC43xx.IAP_CMD_INIT [];
      LPC43xx.IapCall LPC43xx.IAP_CMD_SET_ACTIVE_BANK [0; 12000] ] /\
  rejected_without_rom_call [] (mkboot (2 ^ 32 - 1) "4294967296"%string).
Proof. vm_compute. repeat split. Qed.

(** ** lpc43xx.c: what becomes of the result of the flash initialisation *)

(** C10. When the ROM's initialize call reports a status other than the
    success code, [lpc43xx_flash_init] returns false; [lpc43xx_mass_erase]
    still issues the PREPARE call of bank 0 right after it and
    [lpc43xx_cmd_mkboot], given a bank of 0 or 1, still issues the
    SET_ACTIVE_BANK call right after it.  Only [lpc43xx_flash_erase] makes an
    error of it: it returns -1 and does not go on to the shared erase
    primitive. *)
Theorem flash_init_result_discarded
  (rd : LPC43xx.trace -> Z -> Z)
  (iap : LPC43xx.trace -> LPC43xx.iap_cmd -> list Z -> Z)
  (erase_result : LPC43xx.trace -> Z -> Z -> Z)
  (SUCCESS clk ULONG_MAX : Z) (argv : list string) (addr len : Z) (h : LPC43xx.trace) :
  let init := LPC43xx.lpc43xx_flash_init rd iap SUCCESS in
  let bank := uint32 (Libc.strtoul ULONG_MAX (nth 1 argv ""%string)) in
  (init_status rd iap (h ++ [LPC43xx.TimeoutSet 500]) <> SUCCESS ->
   fst (init (h ++ [LPC43xx.TimeoutSet 500])) = false /\
   exists rest,
     snd (LPC43xx.lpc43xx_mass_erase rd iap SUCCESS clk h) =
       snd (init (h ++ [LPC43xx.TimeoutSet 500])) ++ PREPARE 0 :: rest) /\
  (init_status rd iap h <> SUCCESS -> bank <= 1 ->
   fst (init h) = false /\
   exists rest,
     snd (LPC43xx.lpc43xx_cmd_mkboot rd iap SUCCESS clk ULONG_MAX 2 argv h) =
       snd (init h) ++
       LPC43xx.IapCall LPC43xx.IAP_CMD_SET_ACTIVE_BANK [bank; clk] :: rest) /\
  (init_status rd iap h <> SUCCESS ->
   LPC43xx.lpc43xx_flash_erase rd iap erase_result SUCCESS addr len h = (-1, snd (init h))) /\
  (init_status rd iap h = SUCCESS ->
   LPC43xx.lpc43xx_flash_erase rd iap erase_result SUCCESS addr len h =
     (erase_result (snd (init h)) addr len,
      snd (init h) ++ [LPC43xx.FlashErase addr len])).
Proof.
  intros init bank.
  assert (Hfalse : forall h', init_status rd iap h' <> SUCCESS -> fst (init h') = false).
  { intros h' Hst. subst init. cbv beta. rewrite flash_init_run. cbn [fst].
    destruct (Z.eqb_spec (init_status rd iap h') SUCCESS); [contradiction | reflexivity]. }
  split; [| split; [| split]].
  - intros Hst. split; [apply Hfalse; exact Hst |].
    rewrite (mass_erase_run rd iap SUCCESS clk h). fold init.
    destruct (negb _); [eexists; reflexivity |].
    destruct (negb _); [eexists; reflexivity |].
    destruct (negb _); [rewrite <- app_assoc; eexists; reflexivity |].
    destruct (negb _); rewrite <- app_assoc; eexists; reflexivity.
  - intros Hst Hbank. split; [apply Hfalse; exact Hst |].
    rewrite mkboot_good_bank by exact Hbank. fold bank. fold init.
    destruct (negb _); eexists; reflexivity.
  - intros Hst. unfold LPC43xx.lpc43xx_flash_erase, bind. fold init.
    specialize (Hfalse h Hst). destruct (init h) as [ok h0]. cbn [fst] in Hfalse.
    subst ok. reflexivity.
  - intros Hst. unfold LPC43xx.lpc43xx_flash_erase, bind. fold init.
    assert (Htrue : fst (init h) = true).
    { subst init. cbv beta. rewrite flash_init_run. cbn [fst]. rewrite Hst.
      apply Z.eqb_refl. }
    destruct (init h) as [ok h0]. cbn [fst] in Htrue. subst ok. reflexivity.
Qed.

(** A ROM whose initialize call reports status 1 and whose other calls
    report 0: the mass erase goes through both banks. *)
Example mass_erase_after_failed_init :
  let iap := fun (_ : LPC43xx.trace) (c : LPC43xx.iap_cmd) (_ : list Z) =>
               match c with LPC43xx.IAP_CMD_INIT => 1 | _ => 0 end in
  LPC43xx.lpc43xx_flash_init (fun _ _ => 0) iap 0 [] =
    (false,
     [ LPC43xx.MemRead32 0x40080000;
       LPC43xx.MemWrite32 0x4005006C 0x01000800;
       LPC43xx.IapCall LPC43xx.IAP_CMD_INIT [] ]) /\
  fst (LPC43xx.lpc43xx_mass_erase (fun _ _ => 0) iap 0 12000 []) = true /\
  iap_calls (snd (LPC43xx.lpc43xx_mass_erase (fun _ _ => 0) iap 0 12000 [])) =
    [ LPC43xx.IapCall LPC43xx.IAP_CMD_INIT [];
      PREPARE 0; ERASE 12000 0; PREPARE 1; ERASE 12000 1 ] /\
  LPC43xx.lpc43xx_flash_erase (fun _ _ => 0) iap (fun _ _ _ => 0) 0 0x1A000000 0x2000 [] =
    (-1,
     [ LPC43xx.MemRead32 0x40080000;
       LPC43xx.MemWrite32 0x4005006C 0x01000800;
       LPC43xx.IapCall LPC43xx.IAP_CMD_INIT [] ]).
Proof. vm_compute. repeat split. Qed.

(** ** lpc43xx.c: the probe *)

Section Probe.

Variable rd : LPC43xx.trace -> Z -> Z.
Variable inhibit_nrst : Z.

(** [lpc43xx_detect_flash] registers the flash-bearing layout. *)
Lemma detect_flash_layout (t : LPC43xx.target) (core_type : Z) (h : LPC43xx.trace) :
  LPC43xx.driver t = "LPC43xx"%string ->
  LPC43xx.mass_erase t = Some LPC43xx.lpc43xx_mass_erase_fn ->
  LPC43xx.lpc43xx_detect_flash rd inhibit_nrst t core_type h =
    (flash_bearing t (uint32 (rd h LPC43xx.IAP_ENTRYPOINT_LOCATION)) inhibit_nrst,
     h ++ [LPC43xx.MemRead32 LPC43xx.IAP_ENTRYPOINT_LOCATION]).
Proof.
  destruct t as [id name eraser options rams flashes cmds].
  cbn [LPC43xx.driver LPC43xx.mass_erase]. intros -> ->.
  cbv [LPC43xx.lpc43xx_detect_flash bind ret LPC43xx.target_mem_read32
       flash_bearing flash_region LPC43xx.lpc43xx_add_flash LPC43xx.target_add_flash
       LPC43xx.target_add_ram LPC43xx.target_add_commands
       LPC43xx.cpuid LPC43xx.driver LPC43xx.mass_erase LPC43xx.target_options
       LPC43xx.ram LPC43xx.flash LPC43xx.commands].
  rewrite <- !app_assoc. reflexivity.
Qed.

(** [lpc43xx_probe] as a function of the chip ID word it reads. *)
Lemma probe_run (t : LPC43xx.target) (h : LPC43xx.trace) :
  let chipid := uint32 (rd h LPC43xx.LPC43xx_CHIPID) in
  let h1 := h ++ [LPC43xx.MemRead32 LPC43xx.LPC43xx_CHIPID] in
  let iap_entry := uint32 (rd h1 LPC43xx.IAP_ENTRYPOINT_LOCATION) in
  LPC43xx.lpc43xx_probe rd inhibit_nrst t h =
    if negb (Z.land chipid LPC43xx.LPC43xx_CHIPID_FAMILY_MASK =?
             LPC43xx.LPC43xx_CHIPID_FAMILY_CODE)
    then (false, t, h1)
    else if (chip_code_of chipid =? 4) || (chip_code_of chipid =? 7)
    then (true, flash_bearing t iap_entry inhibit_nrst,
          h1 ++ [LPC43xx.MemRead32 LPC43xx.IAP_ENTRYPOINT_LOCATION])
    else if (chip_code_of chipid =? 5) || (chip_code_of chipid =? 6)
    then (true, flashless t, h1)
    else (false, flashless t, h1).
Proof.
  intros chipid h1 iap_entry.
  unfold LPC43xx.lpc43xx_probe. unfold bind at 1, LPC43xx.target_mem_read32 at 1.
  fold chipid h1.
  destruct (negb (Z.land chipid LPC43xx.LPC43xx_CHIPID_FAMILY_MASK =?
                  LPC43xx.LPC43xx_CHIPID_FAMILY_CODE)); [reflexivity |].
  fold (chip_code_of chipid). fold (flashless t).
  destruct ((chip_code_of chipid =? 4) || (chip_code_of chipid =? 7)).
  - unfold bind, ret. rewrite detect_flash_layout by reflexivity. reflexivity.
  - destruct ((chip_code_of chipid =? 5) || (chip_code_of chipid =? 6)); reflexivity.
Qed.

End Probe.

(** C5. [lpc43xx_probe] reads the chip ID word and returns false when its
    family field is not the expected code.  With the expected family, chip
    codes 4 and 7 both register the flash-bearing layout (the three RAM
    windows, the four flash regions, the commands), the same for both given
    the same entry point word; chip codes 5 and 6 register nothing and
    succeed; every other chip code makes the probe return false. *)
Theorem probe_variants
  (rd rd' : LPC43xx.trace -> Z -> Z) (inhibit_nrst : Z)
  (t : LPC43xx.target) (h : LPC43xx.trace) :
  let chipid := uint32 (rd h LPC43xx.LPC43xx_CHIPID) in
  let chipid' := uint32 (rd' h LPC43xx.LPC43xx_CHIPID) in
  let family := fun id => Z.land id LPC43xx.LPC43xx_CHIPID_FAMILY_MASK in
  let h1 := h ++ [LPC43xx.MemRead32 LPC43xx.LPC43xx_CHIPID] in
  let iap_entry := uint32 (rd h1 LPC43xx.IAP_ENTRYPOINT_LOCATION) in
  let iap_entry' := uint32 (rd' h1 LPC43xx.IAP_ENTRYPOINT_LOCATION) in
  let r := LPC43xx.lpc43xx_probe rd inhibit_nrst t h in
  let r' := LPC43xx.lpc43xx_probe rd' inhibit_nrst t h in
  (family chipid <> LPC43xx.LPC43xx_CHIPID_FAMILY_CODE -> r = (false, t, h1)) /\
  (family chipid = LPC43xx.LPC43xx_CHIPID_FAMILY_CODE ->
   chip_code_of chipid = 4 \/ chip_code_of chipid = 7 ->
   r = (true, flash_bearing t iap_entry inhibit_nrst,
        h1 ++ [LPC43xx.MemRead32 LPC43xx.IAP_ENTRYPOINT_LOCATION])) /\
  (family chipid = LPC43xx.LPC43xx_CHIPID_FAMILY_CODE ->
   chip_code_of chipid = 5 \/ chip_code_of chipid = 6 ->
   r = (true, flashless t, h1)) /\
  (family chipid = LPC43xx.LPC43xx_CHIPID_FAMILY_CODE ->
   chip_code_of chipid <> 4 -> chip_code_of chipid <> 7 ->
   chip_code_of chipid <> 5 -> chip_code_of chipid <> 6 ->
   fst (fst r) = false) /\
  (family chipid = LPC43xx.LPC43xx_CHIPID_FAMILY_CODE ->
   family chipid' = LPC43xx.LPC43xx_CHIPID_FAMILY_CODE ->
   chip_code_of chipid = 4 -> chip_code_of chipid' = 7 ->
   iap_entry = iap_entry' ->
   r = r').
Proof.
  intros chipid chipid' family h1 iap_entry iap_entry' r r'.
  assert (Hr := probe_run rd inhibit_nrst t h).
  assert (Hr' := probe_run rd' inhibit_nrst t h).
  cbv zeta in Hr, Hr'.
  fold chipid h1 in Hr. fold iap_entry (family chipid) r in Hr.
  fold chipid' h1 in Hr'. fold iap_entry' (family chipid') r' in Hr'.
  split; [| split; [| split; [| split]]].
  - intros Hfam. rewrite Hr.
    destruct (Z.eqb_spec (family chipid) LPC43xx.LPC43xx_CHIPID_FAMILY_CODE);
      [contradiction | reflexivity].
  - intros Hfam Hcode. rewrite Hr, Hfam. cbn [Z.eqb Pos.eqb negb].
    destruct Hcode as [-> | ->]; reflexivity.
  - intros Hfam Hcode. rewrite Hr, Hfam. cbn [Z.eqb Pos.eqb negb].
    destruct Hcode as [-> | ->]; reflexivity.
  - intros Hfam H4 H7 H5 H6. rewrite Hr, Hfam. cbn [Z.eqb Pos.eqb negb].
    destruct (Z.eqb_spec (chip_code_of chipid) 4); [contradiction |].
    destruct (Z.eqb_spec (chip_code_of chipid) 7); [contradiction |].
    destruct (Z.eqb_spec (chip_code_of chipid) 5); [contradiction |].
    destruct (Z.eqb_spec (chip_code_of chipid) 6); [contradiction |].
    reflexivity.
  - intros Hfam Hfam' H4 H7 Hentry.
    rewrite Hr, Hr', Hfam, Hfam', H4, H7, Hentry. reflexivity.
Qed.

(** The two chip ID words 0x4906002b and 0x7906002b, with the ROM entry
    point word 0x10400101 behind both. *)
Example probe_chip_codes_4_and_7 :
  let mem := fun id (_ : LPC43xx.trace) (addr : Z) =>
               if addr =? 0x40043200 then id else 0x10400101 in
  LPC43xx.lpc43xx_probe (mem 0x4906002b) 8 target0 [] =
  LPC43xx.lpc43xx_probe (mem 0x7906002b) 8 target0 [] /\
  fst (fst (LPC43xx.lpc43xx_probe (mem 0x7906002b) 8 target0 [])) = true /\
  map LPC43xx.f_start
      (LPC43xx.flash (snd (fst (LPC43xx.lpc43xx_probe (mem 0x7906002b) 8 target0 [])))) =
    [0x1A000000; 0x1A010000; 0x1B000000; 0x1B010000] /\
  fst (fst (LPC43xx.lpc43xx_probe (mem 0x5906002b) 8 target0 [])) = true /\
  LPC43xx.flash (snd (fst (LPC43xx.lpc43xx_probe (mem 0x6906002b) 8 target0 []))) = [] /\
  fst (fst (LPC43xx.lpc43xx_probe (mem 0x3906002b) 8 target0 [])) = false /\
  fst (fst (LPC43xx.lpc43xx_probe (mem 0x4906002c) 8 target0 [])) = false.
Proof. vm_compute. repeat split. Qed.

(* ====================================================================== *)
(** * Further properties of avr_pdi.c and avr_jtagdp.c *)
(* ====================================================================== *)

(** ** What the register operations send *)

Lemma shifts_only_refl (jd : Z) (n : nat) (h : AVR.jtag) : shifts_only jd n h h.
Proof.
  exists []. rewrite app_nil_r. repeat split; [apply Nat.le_0_l | constructor].
Qed.

Lemma shifts_only_step (jd : Z) (n : nat) (h h' : AVR.jtag) (dr_in : Z) :
  shifts_only jd n h h' -> shifts_only jd (S n) h (h' ++ [AVR.ShiftDR jd dr_in]).
Proof.
  intros (issued & -> & Hlen & Hall). exists (issued ++ [AVR.ShiftDR jd dr_in]).
  rewrite app_assoc, length_app, Nat.add_1_r. repeat split.
  - apply le_n_S. exact Hlen.
  - apply Forall_app. split; [exact Hall |]. constructor; [eexists; reflexivity | constructor].
Qed.

Lemma shifts_only_trans (jd : Z) (n m : nat) (h h1 h2 : AVR.jtag) :
  shifts_only jd n h h1 -> shifts_only jd m h1 h2 -> shifts_only jd (n + m) h h2.
Proof.
  intros (i1 & -> & Hl1 & Ha1) (i2 & -> & Hl2 & Ha2). exists (i1 ++ i2).
  rewrite app_assoc, length_app. repeat split.
  - apply Nat.add_le_mono; assumption.
  - apply Forall_app. split; assumption.
Qed.

Lemma shifts_only_weaken (jd : Z) (n m : nat) (h h' : AVR.jtag) :
  (n <= m)%nat -> shifts_only jd n h h' -> shifts_only jd m h h'.
Proof.
  intros Hnm (issued & -> & Hlen & Hall). exists issued.
  repeat split; [eapply Nat.le_trans; eassumption | exact Hall].
Qed.

Lemma shifts_only_ir_writes (jd : Z) (n : nat) (h h' : AVR.jtag) :
  shifts_only jd n h h' -> ir_writes h' = ir_writes h.
Proof.
  intros (issued & -> & _ & Hall). unfold ir_writes. rewrite filter_app.
  rewrite <- (app_nil_r (filter _ h)) at 2. f_equal.
  induction Hall as [| e l [x ->] _ IH]; [reflexivity | exact IH].
Qed.

Lemma shifts_only_count (jd : Z) (n : nat) (h h' : AVR.jtag) :
  shifts_only jd n h h' -> (AVR.shift_count h' <= AVR.shift_count h + n)%nat.
Proof.
  intros (issued & -> & Hlen & _). unfold AVR.shift_count.
  rewrite filter_app, length_app. apply Nat.add_le_mono_l.
  eapply Nat.le_trans; [apply filter_length_le | exact Hlen].
Qed.

Section ShiftBudget.

Variable tr : AVR.transport.
Variable pdi : AVR.avr_pdi_t.

Lemma reg_write_shifts_only (reg value : Z) (h : AVR.jtag) :
  shifts_only (AVR.dp_jd_index pdi) 2 h (snd (AVR.avr_pdi_reg_write tr pdi reg value h)).
Proof.
  destruct (Z.le_gt_cases 16 reg) as [Hreg | Hreg].
  - rewrite reg_write_out_of_range by assumption. apply shifts_only_refl.
  - rewrite reg_write_in_range by lia.
    repeat match goal with |- context [if ?b then _ else _] => destruct b end;
      cbn [snd]; repeat apply shifts_only_step;
        first [ apply shifts_only_refl
              | apply shifts_only_weaken with (n := 0%nat);
                [apply Nat.le_0_l | apply shifts_only_refl] ].
Qed.

Lemma reg_read_shifts_only (reg : Z) (h : AVR.jtag) :
  shifts_only (AVR.dp_jd_index pdi) 2 h (snd (AVR.avr_pdi_reg_read tr pdi reg h)).
Proof.
  destruct (Z.le_gt_cases 16 reg) as [Hreg | Hreg].
  - rewrite reg_read_out_of_range by assumption. apply shifts_only_refl.
  - rewrite reg_read_in_range by lia.
    repeat match goal with |- context [if ?b then _ else _] => destruct b end;
      cbn [snd]; repeat apply shifts_only_step;
        first [ apply shifts_only_refl
              | apply shifts_only_weaken with (n := 0%nat);
                [apply Nat.le_0_l | apply shifts_only_refl] ].
Qed.

End ShiftBudget.

(** X1. Whatever the transport answers and whatever the register index,
    [avr_pdi_reg_write] and [avr_pdi_reg_read] each add at most two
    transactions to the chain, all of them data-register shifts on the
    context's own device; they never write the instruction register. *)
Theorem reg_access_shift_budget
  (tr : AVR.transport) (pdi : AVR.avr_pdi_t) (reg value : Z) (h : AVR.jtag) :
  let w := snd (AVR.avr_pdi_reg_write tr pdi reg value h) in
  let r := snd (AVR.avr_pdi_reg_read tr pdi reg h) in
  shifts_only (AVR.dp_jd_index pdi) 2 h w /\
  shifts_only (AVR.dp_jd_index pdi) 2 h r /\
  ir_writes w = ir_writes h /\
  ir_writes r = ir_writes h /\
  (AVR.shift_count w <= AVR.shift_count h + 2)%nat /\
  (AVR.shift_count r <= AVR.shift_count h + 2)%nat.
Proof.
  intros w r.
  assert (Hw := reg_write_shifts_only tr pdi reg value h).
  assert (Hr := reg_read_shifts_only tr pdi reg h).
  fold w in Hw. fold r in Hr.
  repeat split; try assumption.
  - eapply shifts_only_ir_writes; exact Hw.
  - eapply shifts_only_ir_writes; exact Hr.
  - eapply shifts_only_count; exact Hw.
  - eapply shifts_only_count; exact Hr.
Qed.

(** ** What a successful operation has sent *)

(** The command bytes of the registers in range. *)
Lemma command_byte (reg : Z) :
  0 <= reg < 16 ->
  uint8 (Z.lor AVR.PDI_STCS reg) = 0xC0 + reg /\
  uint8 (Z.lor AVR.PDI_LDCS reg) = 0x80 + reg.
Proof.
  intros Hreg.
  assert (Hall : forallb (fun n => let r := Z.of_nat n in
                            (uint8 (Z.lor AVR.PDI_STCS r) =? 0xC0 + r) &&
                            (uint8 (Z.lor AVR.PDI_LDCS r) =? 0x80 + r))
                   (seq 0 16) = true) by (vm_compute; reflexivity).
  rewrite forallb_forall in Hall. specialize (Hall (Z.to_nat reg)).
  cbv zeta in Hall. rewrite Z2Nat.id in Hall by lia.
  assert (Hin : In (Z.to_nat reg) (seq 0 16)) by (apply in_seq; lia).
  apply Hall in Hin. apply andb_true_iff in Hin as [H1 H2].
  split; apply Z.eqb_eq; assumption.
Qed.

Section SuccessTraces.

Variable tr : AVR.transport.
Variable pdi : AVR.avr_pdi_t.

(** A write that returns true has shifted the command and then the value. *)
Lemma reg_write_true_trace (reg value : Z) (h h' : AVR.jtag) :
  0 <= reg ->
  AVR.avr_pdi_reg_write tr pdi reg value h = (true, h') ->
  reg < 16 /\
  h' = h ++ [AVR.ShiftDR (AVR.dp_jd_index pdi) (0xC0 + reg);
             AVR.ShiftDR (AVR.dp_jd_index pdi) value].
Proof.
  intros Hpos Hrun. destruct (Z.le_gt_cases 16 reg) as [Hreg | Hreg].
  - rewrite reg_write_out_of_range in Hrun by assumption. discriminate Hrun.
  - split; [lia |]. rewrite reg_write_in_range in Hrun by lia.
    assert (Hcmd : uint8 (Z.lor AVR.PDI_STCS reg) = 0xC0 + reg)
      by (apply command_byte; lia).
    rewrite Hcmd in Hrun.
    repeat match type of Hrun with
           | context [if ?b then _ else _] => destruct b
           end; try discriminate Hrun.
    injection Hrun as _ <-. rewrite <- app_assoc. reflexivity.
Qed.

(** A read that returns a byte other than 0xFF has shifted the command twice. *)
Lemma reg_read_value_trace (reg v : Z) (h h' : AVR.jtag) :
  0 <= reg ->
  v <> 0xFF ->
  AVR.avr_pdi_reg_read tr pdi reg h = (v, h') ->
  reg < 16 /\
  h' = h ++ [AVR.ShiftDR (AVR.dp_jd_index pdi) (0x80 + reg);
             AVR.ShiftDR (AVR.dp_jd_index pdi) (0x80 + reg)].
Proof.
  intros Hpos Hv Hrun. destruct (Z.le_gt_cases 16 reg) as [Hreg | Hreg].
  - rewrite reg_read_out_of_range in Hrun by assumption. congruence.
  - split; [lia |]. rewrite reg_read_in_range in Hrun by lia.
    assert (Hcmd : uint8 (Z.lor AVR.PDI_LDCS reg) = 0x80 + reg)
      by (apply command_byte; lia).
    rewrite Hcmd in Hrun.
    repeat match type of Hrun with
           | context [if ?b then _ else _] => destruct b
           end; try congruence.
    injection Hrun as _ <-. rewrite <- app_assoc. reflexivity.
Qed.

Lemma handshake_ok_trace (h h' : AVR.jtag) :
  handshake_ok tr pdi h h' -> h' = h ++ halt_shifts (AVR.dp_jd_index pdi).
Proof.
  intros (h1 & h2 & h3 & h4 & E1 & E2 & E3 & E4 & E5).
  apply reg_write_true_trace in E1 as [_ ->]; [| discriminate].
  apply reg_read_value_trace in E2 as [_ ->]; [| discriminate | discriminate].
  apply reg_write_true_trace in E3 as [_ ->]; [| discriminate].
  apply reg_read_value_trace in E4 as [_ ->]; [| discriminate | discriminate].
  apply reg_read_value_trace in E5 as [_ ->]; [| discriminate | discriminate].
  rewrite <- !app_assoc. reflexivity.
Qed.

End SuccessTraces.

Lemma halt_request_cases (tr : AVR.transport) (pdi : AVR.avr_pdi_t) (h : AVR.jtag) :
  (exists h',
      handshake_ok tr pdi h h' /\
      AVR.avr_halt_request tr pdi h =
        (AVR.Returned tt, AVR.set_halt_reason pdi AVR.TARGET_HALT_REQUEST, h')) \/
  (exists msg h',
      AVR.avr_halt_request tr pdi h = (AVR.Raised AVR.EXCEPTION_ERROR msg, pdi, h')).
Proof.
  unfold AVR.avr_halt_request.
  destruct (AVR.halt_handshake_failed tr pdi h) as [failed h'] eqn:E.
  destruct failed.
  - right. eexists; exists h'. reflexivity.
  - left. exists h'. split; [apply not_failed_handshake_ok; exact E | reflexivity].
Qed.

(** X2. When [avr_halt_request] returns instead of raising, the chain has
    grown by exactly ten shifts on the context's device, whose bytes do not
    depend on the transport: 0xC4 and 1 (write R4), 0x83 twice (read R3),
    0xC1 and 0 (write RESET), and 0x83 four times (two reads of R3). *)
Theorem halt_request_success_trace
  (tr : AVR.transport) (pdi : AVR.avr_pdi_t) (h : AVR.jtag) :
  fst (fst (AVR.avr_halt_request tr pdi h)) = AVR.Returned tt ->
  snd (AVR.avr_halt_request tr pdi h) = h ++ halt_shifts (AVR.dp_jd_index pdi) /\
  AVR.shift_count (snd (AVR.avr_halt_request tr pdi h)) = (AVR.shift_count h + 10)%nat.
Proof.
  intros Hret.
  destruct (halt_request_cases tr pdi h) as [(h' & Hok & E) | (msg & h' & E)].
  - rewrite E. cbn [snd]. rewrite (handshake_ok_trace tr pdi h h' Hok).
    split; [reflexivity |].
    unfold AVR.shift_count. rewrite filter_app, length_app. reflexivity.
  - rewrite E in Hret. discriminate Hret.
Qed.

Lemma halt_request_success_trace_witness :
  fst (fst (AVR.avr_halt_request (AVR.scripted halting_script) pdi0 [])) = AVR.Returned tt /\
  AVR.shift_count (snd (AVR.avr_halt_request (AVR.scripted halting_script) pdi0 [])) = 10%nat.
Proof.
  split; [vm_compute; reflexivity |].
  exact (proj2 (halt_request_success_trace (AVR.scripted halting_script) pdi0 []
                  ltac:(vm_compute; reflexivity))).
Defined.

(** ** Reset *)

(** X3. [avr_reset] either finds the write of 0x59 to RESET succeeding and
    STATUS reading 0x00, and then returns after exactly the four shifts 0xC1,
    0x59, 0x80, 0x80; or it raises the error exception.  In both cases the
    context is left as it was: a reset never changes [halt_reason], so after
    a halt request and a reset that both went through [avr_halt_poll] still
    answers halted-by-request. *)
Theorem reset_all_or_nothing
  (tr : AVR.transport) (pdi : AVR.avr_pdi_t) (h : AVR.jtag) :
  let r := AVR.avr_reset tr pdi h in
  let went_through :=
    exists h1 h',
      AVR.avr_pdi_reg_write tr pdi AVR.PDI_REG_RESET AVR.PDI_RESET h = (true, h1) /\
      AVR.avr_pdi_reg_read tr pdi AVR.PDI_REG_STATUS h1 = (0x00, h') in
  ((went_through /\
    r = (AVR.Returned tt, pdi, h ++ reset_shifts (AVR.dp_jd_index pdi)))
   \/
   (~ went_through /\
    exists msg h', r = (AVR.Raised AVR.EXCEPTION_ERROR msg, pdi, h'))) /\
  (forall h0 pdi1 h1 pdi2 h2,
     AVR.avr_halt_request tr pdi h0 = (AVR.Returned tt, pdi1, h1) ->
     AVR.avr_reset tr pdi1 h1 = (AVR.Returned tt, pdi2, h2) ->
     AVR.avr_halt_poll pdi2 = AVR.TARGET_HALT_REQUEST).
Proof.
  intros r went_through. split.
  - subst r went_through. unfold AVR.avr_reset, orelse, fmap, bind, ret.
    destruct (AVR.avr_pdi_reg_write tr pdi AVR.PDI_REG_RESET AVR.PDI_RESET h)
      as [w h1] eqn:E1.
    destruct w; cbn [negb].
    + destruct (AVR.avr_pdi_reg_read tr pdi AVR.PDI_REG_STATUS h1) as [v h2] eqn:E2.
      destruct (Z.eqb_spec v 0x00) as [-> | Hv]; cbn [negb].
      * left. split; [exists h1, h2; split; [reflexivity | exact E2] |].
        apply reg_write_true_trace in E1 as [_ ->]; [| discriminate].
        apply reg_read_value_trace in E2 as [_ ->]; [| discriminate | discriminate].
        rewrite <- app_assoc. reflexivity.
      * right. split.
        -- intros (h1' & h' & [= <-] & E'). rewrite E2 in E'. congruence.
        -- eexists; eexists; reflexivity.
    + right. split.
      * intros (h1' & h' & E' & _). discriminate E'.
      * eexists; eexists; reflexivity.
  - intros h0 pdi1 h1 pdi2 h2 Hhalt Hreset.
    destruct (halt_request_cases tr pdi h0) as [(h' & _ & E) | (msg & h' & E)];
      rewrite E in Hhalt; [| discriminate Hhalt].
    injection Hhalt as <- _.
    unfold AVR.avr_reset in Hreset.
    destruct (orelse _ _ h1) as [failed h3]. destruct failed; [discriminate Hreset |].
    injection Hreset as <- _. reflexivity.
Qed.

(** A reset that goes through, after a halt that went through. *)
Example reset_after_halt :
  let script := halting_script ++ [(false, 0xEB); (false, 0xEB); (false, 0xEB); (true, 0x00)] in
  let '(_, pdi1, h1) := AVR.avr_halt_request (AVR.scripted script) pdi0 [] in
  let '(out, pdi2, h2) := AVR.avr_reset (AVR.scripted script) pdi1 h1 in
  out = AVR.Returned tt /\
  AVR.avr_halt_poll pdi2 = AVR.TARGET_HALT_REQUEST /\
  h2 = halt_shifts 0 ++ reset_shifts 0.
Proof. vm_compute. repeat split. Qed.

(** ** Transports whose flag never changes *)

(** X4. Against a transport that returns the same flag on every shift,
    whatever bytes it captures, no register read gets through: every
    [avr_pdi_reg_read] returns 0xFF, and so [avr_halt_request] and
    [avr_reset] both raise the error exception and leave the context alone. *)
Theorem uniform_flag_never_reads
  (tr : AVR.transport) (flag : bool) (pdi : AVR.avr_pdi_t) (reg : Z) (h : AVR.jtag) :
  (forall h' jd dr_in, fst (tr h' jd dr_in) = flag) ->
  fst (AVR.avr_pdi_reg_read tr pdi reg h) = 0xFF /\
  (exists msg h', AVR.avr_halt_request tr pdi h = (AVR.Raised AVR.EXCEPTION_ERROR msg, pdi, h')) /\
  (exists msg h', AVR.avr_reset tr pdi h = (AVR.Raised AVR.EXCEPTION_ERROR msg, pdi, h')).
Proof.
  intros Hflag.
  assert (Hread : forall r h0, fst (AVR.avr_pdi_reg_read tr pdi r h0) = 0xFF).
  { intros r h0. apply reg_read_uniform_flag with (flag := flag). exact Hflag. }
  split; [apply Hread |]. split.
  - destruct (halt_request_cases tr pdi h) as [(h' & Hok & _) | Hraised]; [| exact Hraised].
    destruct Hok as (h1 & h2 & _ & _ & _ & E2 & _).
    specialize (Hread AVR.PDI_REG_R3 h1). rewrite E2 in Hread. discriminate Hread.
  - unfold AVR.avr_reset, orelse, fmap, bind, ret.
    destruct (AVR.avr_pdi_reg_write tr pdi AVR.PDI_REG_RESET AVR.PDI_RESET h) as [w h1].
    destruct w; cbn [negb]; [| eexists; eexists; reflexivity].
    specialize (Hread AVR.PDI_REG_STATUS h1).
    destruct (AVR.avr_pdi_reg_read tr pdi AVR.PDI_REG_STATUS h1) as [v h2].
    cbn [fst] in Hread. subst v. cbn [Z.eqb negb]. eexists; eexists; reflexivity.
Qed.

Lemma uniform_flag_never_reads_witness :
  fst (AVR.avr_pdi_reg_read (AVR.constant false 0x10) pdi0 3 []) = 0xFF.
Proof.
  exact (proj1 (uniform_flag_never_reads (AVR.constant false 0x10) false pdi0 3 []
                  (fun _ _ _ => eq_refl))).
Defined.

(** ** What halting and resetting send *)

Lemma fmap_snd {S A B : Type} (f : A -> B) (m : ST S A) (s : S) :
  snd (fmap f m s) = snd (m s).
Proof. unfold fmap, bind, ret. destruct (m s); reflexivity. Qed.

Lemma orelse_shifts_only (jd : Z) (n m : nat) (a b : ST AVR.jtag bool) :
  (forall h, shifts_only jd n h (snd (a h))) ->
  (forall h, shifts_only jd m h (snd (b h))) ->
  forall h, shifts_only jd (n + m) h (snd (orelse a b h)).
Proof.
  intros Ha Hb h. unfold orelse, bind, ret. specialize (Ha h).
  destruct (a h) as [x h1]. cbn [snd] in Ha. destruct x; cbn [snd].
  - eapply shifts_only_weaken; [| exact Ha]. apply Nat.le_add_r.
  - eapply shifts_only_trans; [exact Ha | apply Hb].
Qed.

(** X5. [avr_halt_request] adds at most ten transactions to the chain and
    [avr_reset] at most four, whether they return or raise; all of them are
    data-register shifts on the context's device, so neither ever writes the
    instruction register that [avr_attach] has set. *)
Theorem halt_and_reset_shift_budget
  (tr : AVR.transport) (pdi : AVR.avr_pdi_t) (h : AVR.jtag) :
  let halted := snd (AVR.avr_halt_request tr pdi h) in
  let reset := snd (AVR.avr_reset tr pdi h) in
  shifts_only (AVR.dp_jd_index pdi) 10 h halted /\
  shifts_only (AVR.dp_jd_index pdi) 4 h reset /\
  ir_writes halted = ir_writes h /\
  ir_writes reset = ir_writes h /\
  ir_writes (snd (AVR.avr_attach pdi h)) =
    ir_writes h ++ [AVR.WriteIR (AVR.dp_jd_index pdi) AVR.IR_PDI].
Proof.
  intros halted reset.
  assert (Hw : forall reg value h0,
             shifts_only (AVR.dp_jd_index pdi) 2 h0
               (snd (fmap negb (AVR.avr_pdi_reg_write tr pdi reg value) h0))).
  { intros. rewrite fmap_snd. apply reg_write_shifts_only. }
  assert (Hr : forall (f : Z -> bool) reg h0,
             shifts_only (AVR.dp_jd_index pdi) 2 h0
               (snd (fmap f (AVR.avr_pdi_reg_read tr pdi reg) h0))).
  { intros. rewrite fmap_snd. apply reg_read_shifts_only. }
  assert (Hhalt : shifts_only (AVR.dp_jd_index pdi) 10 h halted).
  { subst halted. unfold AVR.avr_halt_request.
    assert (H := orelse_shifts_only (AVR.dp_jd_index pdi) 2 8 _ _
                   (Hw AVR.PDI_REG_R4 1)
                   (orelse_shifts_only _ 2 6 _ _
                      (Hr (fun v => negb (v =? 0x10)) AVR.PDI_REG_R3)
                      (orelse_shifts_only _ 2 4 _ _ (Hw AVR.PDI_REG_RESET 0)
                         (orelse_shifts_only _ 2 2 _ _
                            (Hr (fun v => negb (v =? 0x14)) AVR.PDI_REG_R3)
                            (Hr (fun v => negb (v =? 0x04)) AVR.PDI_REG_R3)))) h).
    fold (AVR.halt_handshake_failed tr pdi) in H.
    destruct (AVR.halt_handshake_failed tr pdi h) as [failed h'].
    cbn [snd] in H. destruct failed; exact H. }
  assert (Hreset : shifts_only (AVR.dp_jd_index pdi) 4 h reset).
  { subst reset. unfold AVR.avr_reset.
    assert (H := orelse_shifts_only (AVR.dp_jd_index pdi) 2 2 _ _
                   (Hw AVR.PDI_REG_RESET AVR.PDI_RESET)
                   (Hr (fun v => negb (v =? 0x00)) AVR.PDI_REG_STATUS) h).
    destruct (orelse _ _ h) as [failed h'].
    cbn [snd] in H. destruct failed; exact H. }
  split; [exact Hhalt |]. split; [exact Hreset |].
  split; [eapply shifts_only_ir_writes; exact Hhalt |].
  split; [eapply shifts_only_ir_writes; exact Hreset |].
  unfold AVR.avr_attach, bind, ret, AVR.jtag_dev_write_ir, ir_writes. cbn [snd].
  rewrite filter_app. reflexivity.
Qed.

(** ** The part number *)

(** The part-number field of an ID code and the part ID taken from it. *)
Lemma part_number_field (idcode : Z) :
  Z.land idcode 0x0FFFF000 = Z.land (Z.shiftr idcode 12) 0xFFFF * 4096.
Proof.
  change 4096 with (2 ^ 12). rewrite <- Z.shiftl_mul_pow2 by lia.
  apply Z.bits_inj'. intros n Hn.
  rewrite Z.land_spec.
  destruct (Z.lt_ge_cases n 12) as [Hlow | Hhigh].
  - rewrite Z.shiftl_spec_low by assumption.
    change 0x0FFFF000 with (Z.shiftl 0xFFFF 12).
    rewrite Z.shiftl_spec_low by assumption. apply andb_false_r.
  - rewrite Z.shiftl_spec_high by lia.
    rewrite Z.land_spec, Z.shiftr_spec by lia.
    replace (n - 12 + 12) with n by lia.
    change 0x0FFFF000 with (Z.shiftl 0xFFFF 12).
    rewrite Z.shiftl_spec_high by lia. reflexivity.
Qed.

(** X6. When the ID code passes the check of [avr_pdi_init] and the target is
    allocated, the target handed to [atxmega_probe] has the ID code as its
    CPU ID and a part ID between 1 and 0xFFFF which, multiplied by 4096, is
    the part-number field of the ID code; the result of [avr_pdi_init] is
    true whatever the prober answers. *)
Theorem init_part_id
  (target_new : option AVR.target)
  (atxmega_probe : AVR.target -> AVR.avr_pdi_t -> ST AVR.jtag (bool * AVR.target * AVR.avr_pdi_t))
  (pdi : AVR.avr_pdi_t) (h : AVR.jtag) :
  Z.land (AVR.idcode pdi) 0x0FFFF000 <> 0 ->
  target_new <> None ->
  exists t,
    AVR.cpuid t = AVR.idcode pdi /\
    0 < AVR.part_id t <= 0xFFFF /\
    AVR.part_id t * 4096 = Z.land (AVR.idcode pdi) 0x0FFFF000 /\
    AVR.priv t = true /\ AVR.priv_free t = true /\
    let probed := atxmega_probe t pdi (h ++ [AVR.WriteIR (AVR.dp_jd_index pdi) AVR.IR_BYPASS]) in
    fst (fst (AVR.avr_pdi_init target_new atxmega_probe pdi h)) = true /\
    AVR.bound (snd (fst (AVR.avr_pdi_init target_new atxmega_probe pdi h))) =
      Some (snd (fst (fst probed))) /\
    snd (AVR.avr_pdi_init target_new atxmega_probe pdi h) = snd probed.
Proof.
  intros Hid Hnew. destruct target_new as [t0 |] eqn:E; [| contradiction].
  eexists. split; [| split; [| split; [| split; [| split]]]];
    [ | | | | | rewrite (avr_pdi_init_valid_idcode _ _ _ _ t0 Hid eq_refl);
                destruct (fst (fst (fst _))); repeat split ];
    cbn [AVR.cpuid AVR.part_id AVR.priv AVR.priv_free]; try reflexivity.
  - assert (Hfield := part_number_field (AVR.idcode pdi)).
    assert (Hrange : 0 <= Z.land (Z.shiftr (AVR.idcode pdi) 12) 0xFFFF < 2 ^ 16).
    { change 0xFFFF with (Z.ones 16). rewrite Z.land_ones by lia.
      apply Z.mod_pos_bound. lia. }
    change (2 ^ 16) with 65536 in Hrange. lia.
  - symmetry. apply part_number_field.
Qed.

Lemma init_part_id_witness :
  exists t,
    AVR.cpuid t = 0x0984203F /\ 0 < AVR.part_id t <= 0xFFFF /\
    AVR.part_id t * 4096 = Z.land 0x0984203F 0x0FFFF000.
Proof.
  destruct (init_part_id (Some AVR.target_zero) (fun t pdi => ret (false, t, pdi))
              (AVR.mk_avr_pdi 0x0984203F 1 AVR.TARGET_HALT_OTHER) []
              ltac:(vm_compute; discriminate) ltac:(discriminate))
    as (t & Hcpu & Hpart & Hfield & _).
  exists t. split; [exact Hcpu | split; [exact Hpart | exact Hfield]].
Defined.

(** ** avr_jtagdp.c: the scan-chain handler *)

(** X7. What [avr_jtag_pdi_handler] leaves on the heap.  A target is created
    exactly when [calloc] succeeds, the ID code recorded for the device has
    a non-zero part number and [target_new] succeeds, and a target never
    comes without its context.  A context that no target owns is left
    behind exactly when [calloc] and the ID code check succeed and
    [target_new] fails.  When [calloc] fails nothing is sent to the chain.
    The ID code passed as second argument plays no part. *)
Theorem pdi_handler_heap
  (target_new : option AVR.target)
  (atxmega_probe : AVR.target -> AVR.avr_pdi_t -> ST AVR.jtag (bool * AVR.target * AVR.avr_pdi_t))
  (calloc_ok : bool) (jd_idcode : Z -> Z) (zero : AVR.target_halt_reason)
  (jd_index j_idcode : Z) (h : AVR.jtag) :
  let run := AVR.avr_jtag_pdi_handler target_new atxmega_probe calloc_ok jd_idcode zero
               jd_index j_idcode h in
  let heap := fst run in
  let valid := Z.land (uint32 (jd_idcode jd_index)) 0x0FFFF000 <> 0 in
  (AVR.bound heap <> None <-> calloc_ok = true /\ valid /\ target_new <> None) /\
  (AVR.bound heap <> None -> AVR.context heap <> None) /\
  (AVR.context heap <> None /\ AVR.bound heap = None <->
   calloc_ok = true /\ valid /\ target_new = None) /\
  (calloc_ok = false -> run = (AVR.mk_binding None None, h)) /\
  (forall other,
     AVR.avr_jtag_pdi_handler target_new atxmega_probe calloc_ok jd_idcode zero
       jd_index other h = run).
Proof.
  intros run heap valid.
  assert (Hcases :
    (calloc_ok = false /\ run = (AVR.mk_binding None None, h)) \/
    (calloc_ok = true /\ ~ valid /\ heap = AVR.mk_binding None None) \/
    (calloc_ok = true /\ valid /\ target_new = None /\
     exists pdi, heap = AVR.mk_binding (Some pdi) None) \/
    (calloc_ok = true /\ valid /\ target_new <> None /\
     exists pdi t, heap = AVR.mk_binding (Some pdi) (Some t))).
  { subst heap run valid. unfold AVR.avr_jtag_pdi_handler.
    destruct calloc_ok; cbn [negb]; [right | left; split; reflexivity].
    unfold bind.
    set (pdi := AVR.mk_avr_pdi _ _ _).
    destruct (Z.eq_dec (Z.land (uint32 (jd_idcode jd_index)) 0x0FFFF000) 0) as [Hz | Hnz].
    - left. split; [reflexivity |]. split; [intros Hv; apply Hv; exact Hz |].
      unfold AVR.avr_pdi_init. cbn [AVR.idcode pdi]. rewrite Hz. reflexivity.
    - right. destruct target_new as [t0 |] eqn:E.
      + right. split; [reflexivity |]. split; [exact Hnz |]. split; [discriminate |].
        rewrite (avr_pdi_init_valid_idcode _ _ pdi h t0 Hnz eq_refl).
        destruct (fst (fst (fst _))); cbn [fst snd ret]; eexists; eexists; reflexivity.
      + left. split; [reflexivity |]. split; [exact Hnz |]. split; [reflexivity |].
        unfold AVR.avr_pdi_init. cbn [AVR.idcode pdi].
        destruct (Z.eqb_spec (Z.land (uint32 (jd_idcode jd_index)) 0x0FFFF000) 0);
          [contradiction |].
        cbn. exists pdi. reflexivity. }
  split; [| split; [| split; [| split]]].
  - destruct Hcases as [[Hc Hr] | [(Hc & Hv & Hh) | [(Hc & Hv & Hn & pdi & Hh) | (Hc & Hv & Hn & pdi & t & Hh)]]].
    + subst heap. rewrite Hr. cbn. split; [intros H; contradiction | intros [H _]; congruence].
    + rewrite Hh. cbn. split; [intros H; contradiction | intros (_ & H & _); contradiction].
    + rewrite Hh. cbn. split; [intros H; contradiction | intros (_ & _ & H); contradiction].
    + rewrite Hh. cbn. split; [intros _; repeat split; assumption | intros _; discriminate].
  - destruct Hcases as [[Hc Hr] | [(Hc & Hv & Hh) | [(Hc & Hv & Hn & pdi & Hh) | (Hc & Hv & Hn & pdi & t & Hh)]]].
    + subst heap. rewrite Hr. cbn. intros H; contradiction.
    + rewrite Hh. cbn. intros H; contradiction.
    + rewrite Hh. cbn. intros H; contradiction.
    + rewrite Hh. cbn. intros _; discriminate.
  - destruct Hcases as [[Hc Hr] | [(Hc & Hv & Hh) | [(Hc & Hv & Hn & pdi & Hh) | (Hc & Hv & Hn & pdi & t & Hh)]]].
    + subst heap. rewrite Hr. cbn. split; [intros [H _]; contradiction | intros [H _]; congruence].
    + rewrite Hh. cbn. split; [intros [H _]; contradiction | intros (_ & H & _); contradiction].
    + rewrite Hh. cbn. split; [intros _; repeat split; assumption | intros _; split; [discriminate | reflexivity]].
    + rewrite Hh. cbn. split; [intros [_ H]; discriminate | intros (_ & _ & H); contradiction].
  - intros Hc. destruct Hcases as [[_ Hr] | [(Hc' & _) | [(Hc' & _) | (Hc' & _)]]];
      [exact Hr | congruence | congruence | congruence].
  - intros other. reflexivity.
Qed.

(* ====================================================================== *)
(** * Further properties of lpc43xx.c *)
(* ====================================================================== *)

(** ** The erase loop *)

Section EraseLoop.

Variable iap : LPC43xx.trace -> LPC43xx.iap_cmd -> list Z -> Z.
Variable clk : Z.

Lemma mass_erase_loop_run (turns : nat) :
  forall bank h,
    exists issued,
      snd (LPC43xx.mass_erase_loop iap clk turns bank h) = h ++ issued /\
      loop_invariants turns bank (fst (LPC43xx.mass_erase_loop iap clk turns bank h)) issued.
Proof.
  induction turns as [| turns IH]; intros bank h.
  - exists []. cbn [LPC43xx.mass_erase_loop ret fst snd]. rewrite app_nil_r.
    split; [reflexivity |]. unfold loop_invariants, progress_count, iap_calls.
    cbn [filter List.length erases_prepared erase_banks].
    repeat split; try reflexivity; try lia; constructor.
  - assert (E : LPC43xx.mass_erase_loop iap clk (S turns) bank h =
                if negb (iap h LPC43xx.IAP_CMD_PREPARE [0; 14; bank] =? 0)
                then (false, h ++ [PREPARE bank])
                else if negb (iap (h ++ [PREPARE bank]) LPC43xx.IAP_CMD_ERASE
                                [0; 14; clk; bank] =? 0)
                then (false, (h ++ [PREPARE bank]) ++ [ERASE clk bank])
                else LPC43xx.mass_erase_loop iap clk turns (bank + 1)
                       (((h ++ [PREPARE bank]) ++ [ERASE clk bank]) ++
                        [LPC43xx.PrintProgress])).
    { cbn [LPC43xx.mass_erase_loop]. unfold bind at 1. rewrite mass_erase_bank_run.
      destruct (negb (iap h LPC43xx.IAP_CMD_PREPARE [0; 14; bank] =? 0)); [reflexivity |].
      destruct (negb (iap (h ++ [PREPARE bank]) LPC43xx.IAP_CMD_ERASE
                        [0; 14; clk; bank] =? 0)); reflexivity. }
    rewrite E. clear E.
    destruct (negb (iap h LPC43xx.IAP_CMD_PREPARE [0; 14; bank] =? 0)).
    + exists [PREPARE bank]. cbn [ret fst snd]. split; [reflexivity |].
      unfold loop_invariants, progress_count, iap_calls, PREPARE.
      cbn [filter List.length erases_prepared erase_banks is_progress is_iap_call
           touches_target andb].
      repeat split; try reflexivity; try lia; try discriminate.
      constructor; [lia | constructor].
    + destruct (negb (iap (h ++ [PREPARE bank]) LPC43xx.IAP_CMD_ERASE [0; 14; clk; bank] =? 0)).
      * exists [PREPARE bank; ERASE clk bank]. cbn [ret fst snd].
        split; [rewrite <- app_assoc; reflexivity |].
        unfold loop_invariants, progress_count, iap_calls, PREPARE, ERASE.
        cbn [filter List.length erases_prepared erase_banks is_progress is_iap_call
             touches_target andb is_prepare_for].
        rewrite !Z.eqb_refl.
        repeat split; try reflexivity; try lia; try discriminate.
        repeat constructor; lia.
      * destruct (IH (bank + 1)
                    (((h ++ [PREPARE bank]) ++ [ERASE clk bank]) ++ [LPC43xx.PrintProgress]))
          as (issued & Hsnd & Hprep & Hprog & Hres & Hcalls & Hall & Hbanks & Hno).
        exists ([PREPARE bank; ERASE clk bank; LPC43xx.PrintProgress] ++ issued).
        split; [rewrite Hsnd, <- !app_assoc; reflexivity |].
        unfold loop_invariants, progress_count, iap_calls, PREPARE, ERASE in *.
        cbn [app filter List.length erases_prepared erase_banks is_progress is_iap_call
             touches_target andb is_prepare_for].
        rewrite !Z.eqb_refl. cbn [andb].
        split; [intros _; apply Hprep |].
        split; [lia |].
        split; [rewrite Hres; lia |].
        split; [lia |].
        split; [intros Hok; specialize (Hall Hok); lia |].
        split.
        -- constructor; [lia |]. constructor; [lia |].
           eapply Forall_impl; [| exact Hbanks]. cbv beta. intros b Hb. lia.
        -- rewrite Hno. reflexivity.
Qed.

End EraseLoop.

(** ** Mass erase as a whole *)

Lemma mass_erase_as_loop
  (rd : LPC43xx.trace -> Z -> Z)
  (iap : LPC43xx.trace -> LPC43xx.iap_cmd -> list Z -> Z)
  (SUCCESS clk : Z) (h : LPC43xx.trace) :
  LPC43xx.lpc43xx_mass_erase rd iap SUCCESS clk h =
    LPC43xx.mass_erase_loop iap clk 2 0
      (snd (LPC43xx.lpc43xx_flash_init rd iap SUCCESS (h ++ [LPC43xx.TimeoutSet 500]))).
Proof.
  unfold LPC43xx.lpc43xx_mass_erase, LPC43xx.platform_timeout_set.
  unfold bind at 1 2.
  destruct (LPC43xx.lpc43xx_flash_init rd iap SUCCESS (h ++ [LPC43xx.TimeoutSet 500])).
  reflexivity.
Qed.

(** X9. [lpc43xx_mass_erase] returns true exactly when the four ROM calls
    PREPARE and ERASE of bank 0 and of bank 1 all return status zero; the
    status of the initialize call plays no part.  After the flash
    initialisation it names banks 0 and 1 only, never erases sectors it has
    not just prepared, makes at most four ROM calls and touches the target
    through them alone. *)
Theorem mass_erase_result
  (rd : LPC43xx.trace -> Z -> Z)
  (iap : LPC43xx.trace -> LPC43xx.iap_cmd -> list Z -> Z)
  (SUCCESS clk : Z) (h : LPC43xx.trace) :
  let r := LPC43xx.lpc43xx_mass_erase rd iap SUCCESS clk h in
  let h0 := snd (LPC43xx.lpc43xx_flash_init rd iap SUCCESS (h ++ [LPC43xx.TimeoutSet 500])) in
  let p0 := iap h0 LPC43xx.IAP_CMD_PREPARE [0; 14; 0] in
  let e0 := iap (h0 ++ [PREPARE 0]) LPC43xx.IAP_CMD_ERASE [0; 14; clk; 0] in
  let h1 := h0 ++ [PREPARE 0; ERASE clk 0; LPC43xx.PrintProgress] in
  let p1 := iap h1 LPC43xx.IAP_CMD_PREPARE [0; 14; 1] in
  let e1 := iap (h1 ++ [PREPARE 1]) LPC43xx.IAP_CMD_ERASE [0; 14; clk; 1] in
  (fst r = true <-> p0 = 0 /\ e0 = 0 /\ p1 = 0 /\ e1 = 0) /\
  exists issued,
    snd r = h0 ++ issued /\
    (forall prev, erases_prepared prev issued = true) /\
    Forall (fun b => b = 0 \/ b = 1) (erase_banks issued) /\
    (List.length (iap_calls issued) <= 4)%nat /\
    filter touches_target issued = iap_calls issued /\
    (fst r = true <-> progress_count issued = 2%nat).
Proof.
  intros r h0 p0 e0 h1 p1 e1. split.
  - assert (Hrun := mass_erase_run rd iap SUCCESS clk h).
    cbv zeta in Hrun. fold r h0 in Hrun. fold p0 e0 h1 in Hrun. fold p1 e1 in Hrun.
    rewrite Hrun. clear Hrun. clearbody p0 e0 p1 e1.
    destruct (Z.eqb_spec p0 0) as [-> | H0]; cbn [negb fst];
      [| split; [discriminate | intros [H _]; contradiction]].
    destruct (Z.eqb_spec e0 0) as [-> | H1]; cbn [negb fst];
      [| split; [discriminate | intros (_ & H & _); contradiction]].
    destruct (Z.eqb_spec p1 0) as [-> | H2]; cbn [negb fst];
      [| split; [discriminate | intros (_ & _ & H & _); contradiction]].
    destruct (Z.eqb_spec e1 0) as [-> | H3]; cbn [negb fst];
      [| split; [discriminate | intros (_ & _ & _ & H); contradiction]].
    split; [intros _; repeat split; reflexivity | reflexivity].
  - subst r. rewrite mass_erase_as_loop. fold h0.
    destruct (mass_erase_loop_run iap clk 2 0 h0)
      as (issued & Hsnd & Hprep & Hprog & Hres & Hcalls & _ & Hbanks & Hno).
    exists issued. split; [exact Hsnd |]. split; [exact Hprep |].
    split; [| split; [exact Hcalls | split; [exact Hno | exact Hres]]].
    eapply Forall_impl; [| exact Hbanks]. cbv beta. intros b Hb.
    change (Z.of_nat 2) with 2 in Hb. lia.
Qed.

(** ** The mkboot command as a whole *)

(** X10. Every run of [lpc43xx_cmd_mkboot] ends with exactly one console
    message, and it is "Set bootable OK." exactly when the result is true.
    The result is true exactly when there are two arguments, the bank is 0
    or 1 and the SET_ACTIVE_BANK call returns status zero.  A rejected
    command has touched nothing, and a SET_ACTIVE_BANK call is only ever
    issued for bank 0 or 1 at the core clock. *)
Theorem mkboot_outcome
  (rd : LPC43xx.trace -> Z -> Z)
  (iap : LPC43xx.trace -> LPC43xx.iap_cmd -> list Z -> Z)
  (SUCCESS clk ULONG_MAX argc : Z) (argv : list string) (h : LPC43xx.trace) :
  let r := LPC43xx.lpc43xx_cmd_mkboot rd iap SUCCESS clk ULONG_MAX argc argv h in
  let bank := uint32 (Libc.strtoul ULONG_MAX (nth 1 argv ""%string)) in
  let h0 := snd (LPC43xx.lpc43xx_flash_init rd iap SUCCESS h) in
  exists issued msg,
    snd r = h ++ issued ++ [LPC43xx.Printf msg] /\
    printf_count issued = 0%nat /\
    (fst r = true <-> msg = "Set bootable OK."%string) /\
    (fst r = true <->
     argc = 2 /\ bank <= 1 /\ iap h0 LPC43xx.IAP_CMD_SET_ACTIVE_BANK [bank; clk] = 0) /\
    (argc <> 2 \/ 1 < bank -> issued = []) /\
    (forall b c, In (LPC43xx.IapCall LPC43xx.IAP_CMD_SET_ACTIVE_BANK [b; c]) issued ->
                 (b = 0 \/ b = 1) /\ c = clk).
Proof.
  intros r bank h0.
  assert (Hbank0 : 0 <= bank) by (apply Z.mod_pos_bound; lia).
  destruct (Z.eq_dec argc 2) as [-> | Hargc].
  2: { exists [], "Expected bank argument 0 or 1."%string. subst r.
       rewrite mkboot_wrong_argc by assumption. cbn [fst snd app].
       split; [reflexivity |]. split; [reflexivity |].
       split; [split; discriminate |].
       split; [split; [discriminate | intros (H & _); contradiction] |].
       split; [reflexivity | intros b c []]. }
  destruct (Z.lt_ge_cases 1 bank) as [Hbig | Hsmall].
  { exists [], "Unexpected bank number, should be 0 or 1."%string. subst r.
    rewrite mkboot_wrong_bank by assumption. cbn [fst snd app].
    split; [reflexivity |]. split; [reflexivity |].
    split; [split; discriminate |].
    split; [split; [discriminate | intros (_ & H & _); lia] |].
    split; [reflexivity | intros b c []]. }
  assert (Hrun := mkboot_good_bank rd iap SUCCESS clk ULONG_MAX argv h).
  cbv zeta in Hrun. fold bank h0 r in Hrun. specialize (Hrun Hsmall).
  assert (Hh0 : h0 = h ++ flash_init_before_call (uint32 (rd h LPC43xx.LPC43xx_WDT_MODE)) ++
                       [LPC43xx.IapCall LPC43xx.IAP_CMD_INIT []]).
  { subst h0. rewrite flash_init_run. reflexivity. }
  set (call := LPC43xx.IapCall LPC43xx.IAP_CMD_SET_ACTIVE_BANK [bank; clk]) in *.
  set (issued := flash_init_before_call (uint32 (rd h LPC43xx.LPC43xx_WDT_MODE)) ++
                 [LPC43xx.IapCall LPC43xx.IAP_CMD_INIT []; call]).
  assert (Hissued : forall msg, h0 ++ [call; LPC43xx.Printf msg] =
                                h ++ issued ++ [LPC43xx.Printf msg]).
  { intros msg. rewrite Hh0. subst issued. rewrite <- !app_assoc. reflexivity. }
  assert (Hquiet : printf_count issued = 0%nat).
  { subst issued. unfold flash_init_before_call, printf_count.
    destruct (wdt_enabled _ && negb (wdt_locked _)); reflexivity. }
  assert (Hcalls : forall b c,
             In (LPC43xx.IapCall LPC43xx.IAP_CMD_SET_ACTIVE_BANK [b; c]) issued ->
             (b = 0 \/ b = 1) /\ c = clk).
  { intros b c Hin. subst issued. unfold flash_init_before_call in Hin.
    assert (Hcall : LPC43xx.IapCall LPC43xx.IAP_CMD_SET_ACTIVE_BANK [b; c] = call).
    { destruct (wdt_enabled _ && negb (wdt_locked _)); cbn in Hin;
        repeat (destruct Hin as [Hin | Hin]; [try discriminate Hin; symmetry; exact Hin |]);
        contradiction. }
    subst call. injection Hcall as -> ->. split; [lia | reflexivity]. }
  clearbody issued call.
  destruct (Z.eqb_spec (iap h0 LPC43xx.IAP_CMD_SET_ACTIVE_BANK [bank; clk]) 0) as [Hst | Hst];
    cbn [negb] in Hrun.
  - exists issued, "Set bootable OK."%string. rewrite Hrun, Hissued. cbn [fst snd].
    split; [reflexivity |]. split; [exact Hquiet |].
    split; [split; reflexivity |].
    split; [split; [intros _; repeat split; [exact Hsmall | exact Hst] | reflexivity] |].
    split; [intros [H | H]; [contradiction H; reflexivity | lia] | exact Hcalls].
  - exists issued, "Set bootable failed."%string. rewrite Hrun, Hissued. cbn [fst snd].
    split; [reflexivity |]. split; [exact Hquiet |].
    split; [split; discriminate |].
    split; [split; [discriminate | intros (_ & _ & H); contradiction] |].
    split; [intros [H | H]; [contradiction H; reflexivity | lia] | exact Hcalls].
Qed.

(** ** Bank arguments that are not numbers *)

(** X11. A bank argument that does not start with a number (it is empty, or
    its first character is neither white space, a sign nor a decimal digit)
    is not turned down by [lpc43xx_cmd_mkboot]: it counts as bank 0, the
    flash is initialised and SET_ACTIVE_BANK is called for bank 0, and the
    result is that of the command for the argument "0". *)
Theorem mkboot_no_number_is_bank_0
  (rd : LPC43xx.trace -> Z -> Z)
  (iap : LPC43xx.trace -> LPC43xx.iap_cmd -> list Z -> Z)
  (SUCCESS clk ULONG_MAX : Z) (name s : string) (h : LPC43xx.trace) :
  0 <= ULONG_MAX ->
  starts_no_number s = true ->
  let mkboot := LPC43xx.lpc43xx_cmd_mkboot rd iap SUCCESS clk ULONG_MAX 2 in
  mkboot [name; s] h = mkboot [name; "0"%string] h /\
  In (LPC43xx.IapCall LPC43xx.IAP_CMD_SET_ACTIVE_BANK [0; clk]) (snd (mkboot [name; s] h)) /\
  In (LPC43xx.IapCall LPC43xx.IAP_CMD_INIT []) (snd (mkboot [name; s] h)).
Proof.
  intros Hmax Hs mkboot.
  assert (Hbank : forall a, Libc.strtoul ULONG_MAX a = 0 ->
            mkboot [name; a] h =
              if negb (iap (snd (LPC43xx.lpc43xx_flash_init rd iap SUCCESS h))
                         LPC43xx.IAP_CMD_SET_ACTIVE_BANK [0; clk] =? 0)
              then (false, snd (LPC43xx.lpc43xx_flash_init rd iap SUCCESS h) ++
                           [LPC43xx.IapCall LPC43xx.IAP_CMD_SET_ACTIVE_BANK [0; clk];
                            LPC43xx.Printf "Set bootable failed."])
              else (true, snd (LPC43xx.lpc43xx_flash_init rd iap SUCCESS h) ++
                          [LPC43xx.IapCall LPC43xx.IAP_CMD_SET_ACTIVE_BANK [0; clk];
                           LPC43xx.Printf "Set bootable OK."])).
  { intros a Ha. subst mkboot. cbv beta.
    assert (Hrun := mkboot_good_bank rd iap SUCCESS clk ULONG_MAX [name; a] h).
    cbv zeta in Hrun. cbn [nth] in Hrun. rewrite Ha in Hrun.
    change (uint32 0) with 0 in Hrun. apply Hrun. lia. }
  assert (Hzero : Libc.strtoul ULONG_MAX "0" = 0).
  { destruct ULONG_MAX as [| p | p]; [reflexivity | reflexivity | lia]. }
  rewrite (Hbank s (strtoul_no_number _ _ Hmax Hs)), (Hbank "0"%string Hzero).
  split; [reflexivity |].
  clear Hbank.
  assert (Hinit : In (LPC43xx.IapCall LPC43xx.IAP_CMD_INIT [])
                     (snd (LPC43xx.lpc43xx_flash_init rd iap SUCCESS h))).
  { rewrite flash_init_run. cbn [snd].
    apply in_or_app. right. apply in_or_app. right. left. reflexivity. }
  set (h0 := snd (LPC43xx.lpc43xx_flash_init rd iap SUCCESS h)) in *. clearbody h0.
  destruct (negb (iap h0 LPC43xx.IAP_CMD_SET_ACTIVE_BANK [0; clk] =? 0)); cbn [snd]; split;
    apply in_or_app; first [right; left; reflexivity | left; exact Hinit].
Qed.

Lemma mkboot_no_number_is_bank_0_witness :
  In (LPC43xx.IapCall LPC43xx.IAP_CMD_SET_ACTIVE_BANK [0; 12000])
     (snd (LPC43xx.lpc43xx_cmd_mkboot (fun _ _ => 0) (fun _ _ _ => 0) 0 12000 (2 ^ 32 - 1)
             2 ["mkboot"; "bank1"]%string [])).
Proof.
  exact (proj1 (proj2
    (mkboot_no_number_is_bank_0 (fun _ _ => 0) (fun _ _ _ => 0) 0 12000 (2 ^ 32 - 1)
       "mkboot" "bank1" [] ltac:(vm_compute; discriminate) eq_refl))).
Defined.

(** ** The chip ID words the probe accepts *)

(** The two fields of a 32-bit chip ID word, as quotient and remainder. *)
Lemma chipid_fields (chipid : Z) :
  0 <= chipid < 2 ^ 32 ->
  Z.land chipid LPC43xx.LPC43xx_CHIPID_FAMILY_MASK = chipid mod 2 ^ 28 /\
  chip_code_of chipid = chipid / 2 ^ 28.
Proof.
  intros Hrange. split.
  - change LPC43xx.LPC43xx_CHIPID_FAMILY_MASK with (Z.ones 28).
    apply Z.land_ones. lia.
  - unfold chip_code_of. rewrite Z.shiftr_land.
    change (Z.shiftr LPC43xx.LPC43xx_CHIPID_CHIP_MASK LPC43xx.LPC43xx_CHIPID_CHIP_SHIFT)
      with (Z.ones 4).
    rewrite Z.land_ones by lia. unfold LPC43xx.LPC43xx_CHIPID_CHIP_SHIFT.
    rewrite Z.shiftr_div_pow2 by lia.
    apply Z.mod_small. split; [apply Z.div_pos; lia |].
    apply Z.div_lt_upper_bound; [lia |]. change (2 ^ 28 * 2 ^ 4) with (2 ^ 32). lia.
Qed.

(** X12. [lpc43xx_probe] returns true for exactly four values of the chip ID
    word: 0x4906002b, 0x5906002b, 0x6906002b and 0x7906002b. *)
Theorem probe_accepted_chipids
  (rd : LPC43xx.trace -> Z -> Z) (inhibit_nrst : Z)
  (t : LPC43xx.target) (h : LPC43xx.trace) :
  let chipid := uint32 (rd h LPC43xx.LPC43xx_CHIPID) in
  fst (fst (LPC43xx.lpc43xx_probe rd inhibit_nrst t h)) = true <->
  chipid = 0x4906002b \/ chipid = 0x5906002b \/ chipid = 0x6906002b \/ chipid = 0x7906002b.
Proof.
  intros chipid.
  assert (Hrange : 0 <= chipid < 2 ^ 32) by (apply Z.mod_pos_bound; lia).
  destruct (chipid_fields chipid Hrange) as [Hfam Hcode].
  assert (Hdiv := Z.div_mod chipid (2 ^ 28) ltac:(lia)).
  assert (Hmod := Z.mod_pos_bound chipid (2 ^ 28) ltac:(lia)).
  rewrite (probe_run rd inhibit_nrst t h). fold chipid.
  rewrite Hfam, Hcode. unfold LPC43xx.LPC43xx_CHIPID_FAMILY_CODE.
  change (2 ^ 28) with 268435456 in *. change (2 ^ 32) with 4294967296 in *.
  destruct (Z.eqb_spec (chipid mod 268435456) 151388203) as [Hf | Hf]; cbn [negb fst].
  2: { split; [discriminate | lia]. }
  destruct (Z.eqb_spec (chipid / 268435456) 4) as [H4 | H4]; cbn [orb fst];
    [split; [lia | reflexivity] |].
  destruct (Z.eqb_spec (chipid / 268435456) 7) as [H7 | H7]; cbn [orb fst];
    [split; [lia | reflexivity] |].
  destruct (Z.eqb_spec (chipid / 268435456) 5) as [H5 | H5]; cbn [orb fst];
    [split; [lia | reflexivity] |].
  destruct (Z.eqb_spec (chipid / 268435456) 6) as [H6 | H6]; cbn [orb fst];
    [split; [lia | reflexivity] |].
  split; [discriminate | lia].
Qed.

(** ** What the probe does to the target and to its object *)

(** X13. [lpc43xx_probe] only reads: it issues the read of the chip ID word
    and, on the flash-bearing path, the read of the ROM entry point, and
    nothing else.  When the family does not match the target object is
    untouched.  When the family matches but the chip code is not recognised
    the probe returns false with the driver name and the mass-erase slot
    already set, and the registries and options as they were. *)
Theorem probe_reads_only
  (rd : LPC43xx.trace -> Z -> Z) (inhibit_nrst : Z)
  (t : LPC43xx.target) (h : LPC43xx.trace) :
  let r := LPC43xx.lpc43xx_probe rd inhibit_nrst t h in
  let chipid := uint32 (rd h LPC43xx.LPC43xx_CHIPID) in
  let family_ok :=
    Z.land chipid LPC43xx.LPC43xx_CHIPID_FAMILY_MASK = LPC43xx.LPC43xx_CHIPID_FAMILY_CODE in
  (exists issued,
     snd r = h ++ issued /\
     forallb is_mem_read issued = true /\
     (1 <= List.length issued <= 2)%nat /\
     (List.length issued = 2%nat <->
      family_ok /\ (chip_code_of chipid = 4 \/ chip_code_of chipid = 7))) /\
  (~ family_ok -> snd (fst r) = t) /\
  (family_ok -> fst (fst r) = false ->
   snd (fst r) = flashless t /\
   LPC43xx.driver (snd (fst r)) = "LPC43xx"%string /\
   LPC43xx.mass_erase (snd (fst r)) = Some LPC43xx.lpc43xx_mass_erase_fn /\
   LPC43xx.ram (snd (fst r)) = LPC43xx.ram t /\
   LPC43xx.flash (snd (fst r)) = LPC43xx.flash t /\
   LPC43xx.commands (snd (fst r)) = LPC43xx.commands t /\
   LPC43xx.target_options (snd (fst r)) = LPC43xx.target_options t).
Proof.
  intros r chipid family_ok.
  assert (Hr := probe_run rd inhibit_nrst t h). cbv zeta in Hr.
  fold chipid r in Hr. subst family_ok.
  destruct (Z.eqb_spec (Z.land chipid LPC43xx.LPC43xx_CHIPID_FAMILY_MASK)
              LPC43xx.LPC43xx_CHIPID_FAMILY_CODE) as [Hfam | Hfam]; cbn [negb] in Hr.
  2: { rewrite Hr. cbn [fst snd]. split; [| split; [reflexivity | contradiction]].
       exists [LPC43xx.MemRead32 LPC43xx.LPC43xx_CHIPID].
       split; [reflexivity |]. split; [reflexivity |]. cbn [List.length].
       split; [lia |]. split; [discriminate | intros [H _]; contradiction]. }
  assert (Htwo : forall tgt,
    r = (true, tgt, (h ++ [LPC43xx.MemRead32 LPC43xx.LPC43xx_CHIPID]) ++
                    [LPC43xx.MemRead32 LPC43xx.IAP_ENTRYPOINT_LOCATION]) ->
    chip_code_of chipid = 4 \/ chip_code_of chipid = 7 ->
    exists issued,
      snd r = h ++ issued /\ forallb is_mem_read issued = true /\
      (1 <= List.length issued <= 2)%nat /\
      (List.length issued = 2%nat <->
       Z.land chipid LPC43xx.LPC43xx_CHIPID_FAMILY_MASK = LPC43xx.LPC43xx_CHIPID_FAMILY_CODE /\
       (chip_code_of chipid = 4 \/ chip_code_of chipid = 7))).
  { intros tgt -> Hcode.
    exists [LPC43xx.MemRead32 LPC43xx.LPC43xx_CHIPID;
            LPC43xx.MemRead32 LPC43xx.IAP_ENTRYPOINT_LOCATION].
    cbn [snd]. split; [rewrite <- app_assoc; reflexivity |]. split; [reflexivity |].
    cbn [List.length]. split; [lia |]. split; [intros _; split; assumption | reflexivity]. }
  destruct (Z.eqb_spec (chip_code_of chipid) 4) as [H4 | H4]; cbn [orb] in Hr.
  { split; [eapply Htwo; [exact Hr | left; exact H4] |].
    rewrite Hr. cbn [fst snd]. split; [contradiction | discriminate]. }
  destruct (Z.eqb_spec (chip_code_of chipid) 7) as [H7 | H7]; cbn [orb] in Hr.
  { split; [eapply Htwo; [exact Hr | right; exact H7] |].
    rewrite Hr. cbn [fst snd]. split; [contradiction | discriminate]. }
  clear Htwo.
  assert (Hone : exists issued,
             h ++ [LPC43xx.MemRead32 LPC43xx.LPC43xx_CHIPID] = h ++ issued /\
             forallb is_mem_read issued = true /\
             (1 <= List.length issued <= 2)%nat /\
             (List.length issued = 2%nat <->
              Z.land chipid LPC43xx.LPC43xx_CHIPID_FAMILY_MASK =
                LPC43xx.LPC43xx_CHIPID_FAMILY_CODE /\
              (chip_code_of chipid = 4 \/ chip_code_of chipid = 7))).
  { exists [LPC43xx.MemRead32 LPC43xx.LPC43xx_CHIPID].
    split; [reflexivity |]. split; [reflexivity |]. cbn [List.length].
    split; [lia |]. split; [discriminate | intros [_ [H | H]]; contradiction]. }
  destruct ((chip_code_of chipid =? 5) || (chip_code_of chipid =? 6)); rewrite Hr; cbn [fst snd].
  - split; [exact Hone |]. split; [contradiction | discriminate].
  - split; [exact Hone |]. split; [contradiction |]. intros _ _. repeat split.
Qed.

(** ** The layout the probe registers *)

(** X14. On a target whose registries are empty, the flash-bearing path of
    [lpc43xx_probe] registers three RAM windows and four flash regions that,
    taken in address order, cover the 32-bit address space from 0 to 2^32
    without gap or overlap.  In each bank the regions are numbered in
    sectors without gap: each is a whole number of erase blocks long and
    starts at the sector where the one before ends, and the bank ends at
    sector [FLASH_NUM_SECTOR], the range [lpc43xx_mass_erase] erases.  All
    four regions share the ROM entry point read from the target and the same
    16 KiB of call workspace. *)
Theorem probe_layout
  (rd : LPC43xx.trace -> Z -> Z) (inhibit_nrst : Z)
  (t : LPC43xx.target) (h : LPC43xx.trace) :
  let chipid := uint32 (rd h LPC43xx.LPC43xx_CHIPID) in
  let t' := snd (fst (LPC43xx.lpc43xx_probe rd inhibit_nrst t h)) in
  let iap_entry :=
    uint32 (rd (h ++ [LPC43xx.MemRead32 LPC43xx.LPC43xx_CHIPID])
               LPC43xx.IAP_ENTRYPOINT_LOCATION) in
  Z.land chipid LPC43xx.LPC43xx_CHIPID_FAMILY_MASK = LPC43xx.LPC43xx_CHIPID_FAMILY_CODE ->
  chip_code_of chipid = 4 \/ chip_code_of chipid = 7 ->
  LPC43xx.ram t = [] -> LPC43xx.flash t = [] ->
  List.length (LPC43xx.ram t') = 3%nat /\
  List.length (LPC43xx.flash t') = 4%nat /\
  tiles 0 (address_map t') = Some (2 ^ 32) /\
  sectors_from 0 0 (LPC43xx.flash t') = Some LPC43xx.FLASH_NUM_SECTOR /\
  sectors_from 0 1 (LPC43xx.flash t') = Some LPC43xx.FLASH_NUM_SECTOR /\
  Forall (fun f => LPC43xx.iap_entry f = iap_entry /\
                   LPC43xx.iap_ram f = LPC43xx.IAP_RAM_BASE /\
                   LPC43xx.iap_msp f - LPC43xx.iap_ram f = 16384 /\
                   LPC43xx.f_buf_size f = LPC43xx.IAP_PGM_CHUNKSIZE /\
                   (LPC43xx.bank f = 0 \/ LPC43xx.bank f = 1))
         (LPC43xx.flash t').
Proof.
  intros chipid t' iap_entry Hfam Hcode Hram Hflash.
  assert (Ht' : t' = flash_bearing t iap_entry inhibit_nrst).
  { subst t'. rewrite (probe_run rd inhibit_nrst t h). fold chipid iap_entry.
    rewrite Hfam. cbn [Z.eqb Pos.eqb negb].
    destruct Hcode as [-> | ->]; reflexivity. }
  rewrite Ht'. clear Ht'. clearbody iap_entry.
  unfold flash_bearing, address_map.
  cbn [LPC43xx.ram LPC43xx.flash]. rewrite Hram, Hflash. cbn [app].
  split; [reflexivity |]. split; [reflexivity |].
  split; [vm_compute; reflexivity |].
  split; [vm_compute; reflexivity |].
  split; [vm_compute; reflexivity |].
  unfold flash_region.
  repeat (apply Forall_cons;
          [ cbn [LPC43xx.iap_entry LPC43xx.iap_ram LPC43xx.iap_msp LPC43xx.f_buf_size
                 LPC43xx.bank];
            repeat split; first [reflexivity | left; reflexivity | right; reflexivity] |]).
  apply Forall_nil.
Qed.

Lemma probe_layout_witness :
  let mem := fun (_ : LPC43xx.trace) (addr : Z) =>
               if addr =? 0x40043200 then 0x7906002b else 0x10400101 in
  tiles 0 (address_map (snd (fst (LPC43xx.lpc43xx_probe mem 8 target0 [])))) = Some (2 ^ 32).
Proof.
  exact (proj1 (proj2 (proj2
    (probe_layout (fun (_ : LPC43xx.trace) (addr : Z) =>
                     if addr =? 0x40043200 then 0x7906002b else 0x10400101)
       8 target0 [] eq_refl (or_intror eq_refl) eq_refl eq_refl)))).
Defined.

(** ** Feeding the watchdog *)

(** X15. [lpc43xx_wdt_kick] feeds the watchdog whenever its mode word is not
    zero, hardware-locked or not: it writes 0xAA and then 0xFF to the feed
    register and nothing else.  With a mode word of zero it writes nothing.
    It never writes the count register and never calls the ROM.  So for a
    watchdog that reads as locked, which [lpc43xx_flash_init] leaves
    alone, the kick is the one thing that writes to the watchdog. *)
Theorem wdt_kick_feeds
  (rd : LPC43xx.trace -> Z -> Z)
  (iap : LPC43xx.trace -> LPC43xx.iap_cmd -> list Z -> Z)
  (SUCCESS : Z) (h : LPC43xx.trace) :
  let wdt_mode := uint32 (rd h LPC43xx.LPC43xx_WDT_MODE) in
  let kicked := snd (LPC43xx.lpc43xx_wdt_kick rd h) in
  let feed := [LPC43xx.MemWrite32 LPC43xx.LPC43xx_WDT_FEED 0xAA;
               LPC43xx.MemWrite32 LPC43xx.LPC43xx_WDT_FEED 0xFF] in
  (wdt_mode <> 0 -> kicked = h ++ LPC43xx.MemRead32 LPC43xx.LPC43xx_WDT_MODE :: feed) /\
  (wdt_mode = 0 -> kicked = h ++ [LPC43xx.MemRead32 LPC43xx.LPC43xx_WDT_MODE]) /\
  writes_to LPC43xx.LPC43xx_WDT_CNT kicked = writes_to LPC43xx.LPC43xx_WDT_CNT h /\
  iap_calls kicked = iap_calls h /\
  (wdt_locked wdt_mode = true ->
   kicked = h ++ LPC43xx.MemRead32 LPC43xx.LPC43xx_WDT_MODE :: feed /\
   writes_to LPC43xx.LPC43xx_WDT_CNT (snd (LPC43xx.lpc43xx_flash_init rd iap SUCCESS h)) =
     writes_to LPC43xx.LPC43xx_WDT_CNT h).
Proof.
  intros wdt_mode kicked feed.
  assert (Hrun : kicked =
                 if negb (wdt_mode =? 0)
                 then h ++ LPC43xx.MemRead32 LPC43xx.LPC43xx_WDT_MODE :: feed
                 else h ++ [LPC43xx.MemRead32 LPC43xx.LPC43xx_WDT_MODE]).
  { subst kicked. unfold LPC43xx.lpc43xx_wdt_kick, bind, ret,
      LPC43xx.target_mem_read32, LPC43xx.target_mem_write32.
    fold wdt_mode. destruct (negb (wdt_mode =? 0)); cbn [snd];
      rewrite <- ?app_assoc; reflexivity. }
  assert (Hlocked : wdt_locked wdt_mode = true -> wdt_mode <> 0).
  { unfold wdt_locked. intros Hl ->. discriminate Hl. }
  split; [| split; [| split; [| split]]].
  - intros Hmode. rewrite Hrun.
    destruct (Z.eqb_spec wdt_mode 0); [contradiction | reflexivity].
  - intros Hmode. rewrite Hrun, Hmode. reflexivity.
  - rewrite Hrun. unfold writes_to.
    destruct (negb (wdt_mode =? 0)); rewrite filter_app; cbn; apply app_nil_r.
  - rewrite Hrun. unfold iap_calls.
    destruct (negb (wdt_mode =? 0)); rewrite filter_app; cbn; apply app_nil_r.
  - intros Hl. split.
    + rewrite Hrun. destruct (Z.eqb_spec wdt_mode 0) as [Hz | Hz]; [| reflexivity].
      contradiction (Hlocked Hl Hz).
    + rewrite flash_init_run. cbn [snd]. fold wdt_mode.
      unfold flash_init_before_call. rewrite Hl, andb_false_r.
      unfold writes_to. rewrite filter_app. cbn. apply app_nil_r.
Qed.

(** ** Command bytes *)

(** X16. For a register in [0,16) the command byte of a write is 0xC0 + reg
    and that of a read is 0x80 + reg: the conversion to eight bits loses
    nothing, no write command is a read command, and no command is one of
    the special bytes 0xBB, 0xDB and 0xEB.  Each operation in range issues
    at least the shift of its command byte. *)
Theorem command_bytes
  (tr : AVR.transport) (pdi : AVR.avr_pdi_t) (reg reg' value : Z) (h : AVR.jtag) :
  0 <= reg < 16 -> 0 <= reg' < 16 ->
  let stcs := uint8 (Z.lor AVR.PDI_STCS reg) in
  let ldcs := uint8 (Z.lor AVR.PDI_LDCS reg') in
  stcs = 0xC0 + reg /\ ldcs = 0x80 + reg' /\ stcs <> ldcs /\
  ~ In stcs [AVR.PDI_BREAK; AVR.PDI_DELAY; AVR.PDI_EMPTY] /\
  ~ In ldcs [AVR.PDI_BREAK; AVR.PDI_DELAY; AVR.PDI_EMPTY] /\
  (exists rest,
     snd (AVR.avr_pdi_reg_write tr pdi reg value h) =
       h ++ AVR.ShiftDR (AVR.dp_jd_index pdi) (0xC0 + reg) :: rest) /\
  (exists rest,
     snd (AVR.avr_pdi_reg_read tr pdi reg' h) =
       h ++ AVR.ShiftDR (AVR.dp_jd_index pdi) (0x80 + reg') :: rest).
Proof.
  intros Hreg Hreg' stcs ldcs.
  assert (Hs : stcs = 0xC0 + reg) by (apply command_byte; lia).
  assert (Hl : ldcs = 0x80 + reg') by (apply command_byte; lia).
  split; [exact Hs |]. split; [exact Hl |]. split; [lia |].
  unfold AVR.PDI_BREAK, AVR.PDI_DELAY, AVR.PDI_EMPTY.
  split; [cbn [In]; lia |]. split; [cbn [In]; lia |]. split.
  - rewrite reg_write_in_range by lia. fold stcs. rewrite Hs.
    repeat match goal with |- context [if ?b then _ else _] => destruct b end;
      cbn [snd]; rewrite <- ?app_assoc; eexists; reflexivity.
  - rewrite reg_read_in_range by lia. fold ldcs. rewrite Hl.
    repeat match goal with |- context [if ?b then _ else _] => destruct b end;
      cbn [snd]; rewrite <- ?app_assoc; eexists; reflexivity.
Qed.

Lemma command_bytes_witness :
  uint8 (Z.lor AVR.PDI_STCS 4) = 0xC4 /\ uint8 (Z.lor AVR.PDI_LDCS 3) = 0x83.
Proof.
  pose proof (command_bytes (AVR.constant false 0xEB) pdi0 4 3 1 []
                ltac:(lia) ltac:(lia)) as H.
  split; [exact (proj1 H) | exact (proj1 (proj2 H))].
Defined.
